(** * RabbitMQ policies of the rabbitmq-server charm

    A shallow embedding of [hooks/lib/policies.py]: the three policy classes
    ([BasePolicy], [TTLPolicy], [HAPolicy]), their validated properties, the
    computed [definition] of the two specialised classes, and the [set] and
    [clear] methods that drive [rabbitmqctl].

    Conventions.
    - A Python [str] is a Rocq [string] holding the UTF-8 encoding of the
      text; [bytes] is a [list byte].  With that reading
      [bytes.decode("utf-8")] checks that the bytes are well-formed UTF-8 and
      hands them back as text.
    - Python values that reach the constructors are the scalars [None],
      [bool], [int] and [str] ([pyval]).
    - The collaborators patched by the unit tests ([check_output],
      [cmp_pkgrevno], [log], [status_set]) are calls recorded in a trace;
      the answers of the first two are parameters of the model. *)

From Stdlib Require Import ZArith NArith List String Ascii Bool Lia.
From Stdlib Require Import DecimalString.
From Stdlib Require DecimalZ DecimalPos.
From Stdlib.Strings Require Import Byte.
Import ListNotations.
Open Scope string_scope.

(* ------------------------------------------------------------------ *)
(** ** Python scalars and [str()] *)

Inductive pyval : Type :=
| PyNone
| PyBool (b : bool)
| PyInt (z : Z)
| PyStr (s : string).

(** [int.__repr__]: decimal digits, with a leading minus sign below zero. *)
Definition string_of_Z (z : Z) : string :=
  NilZero.string_of_int (Z.to_int z).

(** [str(v)]; also what [format] substitutes for an empty spec. *)
Definition py_str (v : pyval) : string :=
  match v with
  | PyNone => "None"
  | PyBool true => "True"
  | PyBool false => "False"
  | PyInt z => string_of_Z z
  | PyStr s => s
  end.

(** [bool(v)]. *)
Definition py_bool (v : pyval) : bool :=
  match v with
  | PyNone => false
  | PyBool b => b
  | PyInt z => negb (z =? 0)%Z
  | PyStr s => negb (String.eqb s EmptyString)
  end.

(** The double-quote character, as a one-character text. *)
Definition dq : string := String "034"%char EmptyString.

(* ------------------------------------------------------------------ *)
(** ** Exceptions and results *)

Inductive exn_class : Type :=
| CalledProcessError
| ValueError
| UnicodeDecodeError
| TypeError
| OSError.

(** An exception instance: its class and [str(e)]. *)
Record exn : Type := mkExn { exn_cls : exn_class; exn_str : string }.

(** [isinstance(e, ValueError)]: [UnicodeDecodeError] derives from
    [ValueError]. *)
Definition is_ValueError (e : exn) : bool :=
  match exn_cls e with
  | ValueError | UnicodeDecodeError => true
  | _ => false
  end.

Definition is_CalledProcessError (e : exn) : bool :=
  match exn_cls e with
  | CalledProcessError => true
  | _ => false
  end.

Inductive result (A : Type) : Type :=
| Return (a : A)
| Raise (e : exn).
Arguments Return {A} a.
Arguments Raise {A} e.

Definition rbind {A B} (r : result A) (k : A -> result B) : result B :=
  match r with
  | Return a => k a
  | Raise e => Raise e
  end.

(* ------------------------------------------------------------------ *)
(** ** Enumerations

    [Enum('ApplyToTypes', 'queues exchanges all')]: the functional API
    splits the names on blanks; [__members__] maps each name to its member,
    so [value in __members__] is membership among the names. *)

Fixpoint split_blank (acc : string) (s : string) : list string :=
  match s with
  | EmptyString =>
      match acc with EmptyString => [] | _ => [acc] end
  | String c rest =>
      if Ascii.eqb c " "%char
      then match acc with
           | EmptyString => split_blank EmptyString rest
           | _ => acc :: split_blank EmptyString rest
           end
      else split_blank (acc ++ String c EmptyString) rest
  end.

Definition Enum (names : string) : list string :=
  split_blank EmptyString names.

Definition ApplyToTypes : list string := Enum "queues exchanges all".
Definition ModeTypes : list string := Enum "all exactly nodes".
Definition SyncModeTypes : list string := Enum "automatic manual".

Fixpoint mem_str (s : string) (l : list string) : bool :=
  match l with
  | [] => false
  | x :: l' => String.eqb s x || mem_str s l'
  end.

(** [value in E.__members__]: the keys are the names, so only a [str]
    can be found. *)
Definition in_members (members : list string) (value : pyval) : bool :=
  match value with
  | PyStr s => mem_str s members
  | _ => false
  end.

(** The body shared by the three property setters: keep the value when it
    names a member (it is a [str] then), raise [ValueError] otherwise. *)
Definition validated (members : list string) (enum_name : string)
           (value : pyval) : result string :=
  if in_members members value
  then Return (py_str value)
  else Raise (mkExn ValueError
                    ("Value " ++ py_str value ++ " not in " ++ enum_name ++ ".")).

(* ------------------------------------------------------------------ *)
(** ** Policy objects

    The attributes every class assigns in [__init__], and the part that
    depends on the class: [BasePolicy] stores [definition], the other two
    compute it from their own attributes. *)

Inductive policy_class : Type :=
| BasePolicy (definition : string)
| TTLPolicy (ttl : Z) (message_ttl : bool)
| HAPolicy (params : pyval) (_mode : string) (_sync_mode : string).

Record policy : Type := mkPolicy {
  vhost : string;
  name : string;
  pattern : string;
  _apply_to : string;
  priority : string;
  type : string;
  cls : policy_class
}.

(** [self.__class__.__name__]. *)
Definition class_name (self : policy) : string :=
  match cls self with
  | BasePolicy _ => "BasePolicy"
  | TTLPolicy _ _ => "TTLPolicy"
  | HAPolicy _ _ _ => "HAPolicy"
  end.

(** *** Validated properties *)

Definition apply_to (self : policy) : string := _apply_to self.

Definition set_apply_to (self : policy) (value : pyval) : result policy :=
  rbind (validated ApplyToTypes "ApplyToTypes" value) (fun s =>
  Return (mkPolicy (vhost self) (name self) (pattern self) s
                   (priority self) (type self) (cls self))).

(** [HAPolicy.mode] and [HAPolicy.sync_mode] exist on [HAPolicy] objects
    only: the getters are partial. *)
Definition mode (self : policy) : option string :=
  match cls self with
  | HAPolicy _ m _ => Some m
  | _ => None
  end.

Definition sync_mode (self : policy) : option string :=
  match cls self with
  | HAPolicy _ _ sm => Some sm
  | _ => None
  end.

Definition params_of (self : policy) : option pyval :=
  match cls self with
  | HAPolicy p _ _ => Some p
  | _ => None
  end.

Definition with_cls (self : policy) (c : policy_class) : policy :=
  mkPolicy (vhost self) (name self) (pattern self) (_apply_to self)
           (priority self) (type self) c.

(** The setters of the two [HAPolicy] properties.  On an object of another
    class the assignment creates a plain attribute that no method reads, so
    the modelled state is unchanged. *)
Definition set_mode (self : policy) (value : pyval) : result policy :=
  match cls self with
  | HAPolicy p _ sm =>
      rbind (validated ModeTypes "ModeTypes" value) (fun s =>
      Return (with_cls self (HAPolicy p s sm)))
  | _ => Return self
  end.

Definition set_sync_mode (self : policy) (value : pyval) : result policy :=
  match cls self with
  | HAPolicy p m _ =>
      rbind (validated SyncModeTypes "SyncModeTypes" value) (fun s =>
      Return (with_cls self (HAPolicy p m s)))
  | _ => Return self
  end.

(* ------------------------------------------------------------------ *)
(** ** UTF-8 and [json.dumps]

    [utf8_decode] reads the code points of a byte sequence and rejects what
    the strict codec rejects: stray or missing continuation bytes, overlong
    forms, surrogates and values above U+10FFFF.  The state carries the
    number of continuation bytes still expected, the bits read so far and
    the least code point the current form may encode. *)

Definition is_continuation (b : N) : bool :=
  ((128 <=? b) && (b <? 192))%N.

Definition is_surrogate (c : N) : bool :=
  ((55296 <=? c) && (c <=? 57343))%N.

Fixpoint utf8_decode (st : option (nat * N * N)) (bs : list N)
  : option (list N) :=
  match bs with
  | [] => match st with None => Some [] | Some _ => None end
  | b :: rest =>
      match st with
      | None =>
          if (b <? 128)%N then option_map (cons b) (utf8_decode None rest)
          else if (b <? 192)%N then None
          else if (b <? 224)%N
               then utf8_decode (Some (1%nat, N.land b 31, 128%N)) rest
          else if (b <? 240)%N
               then utf8_decode (Some (2%nat, N.land b 15, 2048%N)) rest
          else if (b <? 248)%N
               then utf8_decode (Some (3%nat, N.land b 7, 65536%N)) rest
          else None
      | Some (n, acc, least) =>
          if is_continuation b then
            let acc' := (acc * 64 + N.land b 63)%N in
            match n with
            | O => None
            | S O =>
                if (least <=? acc')%N && (acc' <=? 1114111)%N
                   && negb (is_surrogate acc')
                then option_map (cons acc') (utf8_decode None rest)
                else None
            | S n' => utf8_decode (Some (n', acc', least)) rest
            end
          else None
      end
  end.

Definition bytes := list byte.

Definition code_points_of_bytes (b : bytes) : option (list N) :=
  utf8_decode None (map Byte.to_N b).

(** The code points of a text. *)
Definition code_points (s : string) : option (list N) :=
  code_points_of_bytes (list_byte_of_string s).

Definition hex_digit (n : N) : string :=
  match get (N.to_nat n) "0123456789abcdef" with
  | Some c => String c EmptyString
  | None => EmptyString
  end.

(** ['\\u{0:04x}'.format(n)], for [n] below 65536. *)
Definition u_escape (n : N) : string :=
  "\u" ++ hex_digit (N.land (N.shiftr n 12) 15)
       ++ hex_digit (N.land (N.shiftr n 8) 15)
       ++ hex_digit (N.land (N.shiftr n 4) 15)
       ++ hex_digit (N.land n 15).

(** One character under [ensure_ascii]: the short escapes, printable ASCII
    as it is, [\uXXXX] for the rest, a surrogate pair above the BMP. *)
Definition json_escape_char (c : N) : string :=
  if (c =? 34)%N then "\" ++ dq
  else if (c =? 92)%N then "\\"
  else if (c =? 10)%N then "\n"
  else if (c =? 13)%N then "\r"
  else if (c =? 9)%N then "\t"
  else if (c =? 8)%N then "\b"
  else if (c =? 12)%N then "\f"
  else if ((32 <=? c) && (c <=? 126))%N
       then String (ascii_of_N c) EmptyString
  else if (c <? 65536)%N then u_escape c
  else let n := (c - 65536)%N in
       u_escape (N.lor 55296 (N.land (N.shiftr n 10) 1023))
       ++ u_escape (N.lor 56320 (N.land n 1023)).

(** [json.encoder.py_encode_basestring_ascii].  A [string] that is not the
    encoding of any text stands for no Python value; it is escaped byte by
    byte so that the function is total. *)
Definition json_string (s : string) : string :=
  let cps := match code_points s with
             | Some cps => cps
             | None => map Byte.to_N (list_byte_of_string s)
             end in
  dq ++ concat EmptyString (map json_escape_char cps) ++ dq.

(** [json.dumps] of a scalar. *)
Definition json_dumps_value (v : pyval) : string :=
  match v with
  | PyNone => "null"
  | PyBool true => "true"
  | PyBool false => "false"
  | PyInt z => string_of_Z z
  | PyStr s => json_string s
  end.

(** A [dict] with [str] keys, in insertion order. *)
Definition dict := list (string * pyval).

(** [d[k] = v]: replace the value of an existing key in place, add a new key
    at the end. *)
Fixpoint dict_setitem (d : dict) (k : string) (v : pyval) : dict :=
  match d with
  | [] => [(k, v)]
  | (k', v') :: d' =>
      if String.eqb k k' then (k, v) :: d'
      else (k', v') :: dict_setitem d' k v
  end.

(** The display [{k1: v1, k2: v2, ...}]. *)
Definition dict_display (items : list (string * pyval)) : dict :=
  fold_left (fun d kv => dict_setitem d (fst kv) (snd kv)) items [].

Fixpoint dict_get (d : dict) (k : string) : option pyval :=
  match d with
  | [] => None
  | (k', v') :: d' => if String.eqb k k' then Some v' else dict_get d' k
  end.

Definition json_item (kv : string * pyval) : string :=
  json_string (fst kv) ++ ": " ++ json_dumps_value (snd kv).

(** [json.dumps(d)] with the default separators. *)
Definition json_dumps (d : dict) : string :=
  "{" ++ concat ", " (map json_item d) ++ "}".

(* ------------------------------------------------------------------ *)
(** ** Collaborators and effects

    A method runs to a trace of collaborator calls and a result: the value
    it returns or the exception that leaves it. *)

Inductive level : Type := DEBUG | INFO | WARNING | ERROR.

Inductive event : Type :=
| Log (msg : string) (lvl : level)
| CheckOutput (argv : list string)
| StatusSet (state : string) (msg : string)
| CmpPkgrevno (package : string) (revno : string).

Definition M (A : Type) : Type := (list event * result A)%type.

Definition ret {A} (a : A) : M A := ([], Return a).

Definition bind {A B} (m : M A) (k : A -> M B) : M B :=
  match m with
  | (t, Return a) => let (t', r) := k a in ((t ++ t')%list, r)
  | (t, Raise e) => (t, Raise e)
  end.

Notation "x <- m ;; k" := (bind m (fun x => k))
  (at level 61, m at next level, right associativity).
Notation "m ;; k" := (bind m (fun _ => k))
  (at level 61, right associativity).

(** [try: m  except <classes> as e: handler e]. *)
Definition try_except {A} (m : M A) (catches : exn -> bool)
           (handler : exn -> M A) : M A :=
  match m with
  | (t, Raise e) =>
      if catches e
      then let (t', r) := handler e in ((t ++ t')%list, r)
      else (t, Raise e)
  | (t, Return a) => (t, Return a)
  end.

Definition lift {A} (r : result A) : M A := ([], r).

Definition log (msg : string) (lvl : level) : M unit :=
  ([Log msg lvl], Return tt).

Definition status_set (state msg : string) : M unit :=
  ([StatusSet state msg], Return tt).

Definition trace {A} (m : M A) : list event := fst m.
Definition outcome {A} (m : M A) : result A := snd m.

(** What the unit tests read from their mocks. *)
Definition check_output_calls (t : list event) : list (list string) :=
  flat_map (fun ev => match ev with CheckOutput a => [a] | _ => [] end) t.

Definition status_set_calls (t : list event) : list (string * string) :=
  flat_map (fun ev => match ev with StatusSet s m => [(s, m)] | _ => [] end) t.

Definition log_calls (t : list event) : list (string * level) :=
  flat_map (fun ev => match ev with Log m l => [(m, l)] | _ => [] end) t.

Definition error_logs (t : list event) : list string :=
  flat_map (fun ev => match ev with Log m ERROR => [m] | _ => [] end) t.

(** Collaborators used in the examples: a [rabbitmqctl] that prints [ok],
    one that exits with status 1, and a decimal reader for [int(str)]. *)
Definition check_output_ok (argv : list string) : result bytes :=
  Return (list_byte_of_string "ok").

Definition check_output_fails (argv : list string) : result bytes :=
  Raise (mkExn CalledProcessError
               "Command 'cmd' returned non-zero exit status 1.").

Definition decimal_of_str (s : string) : option Z :=
  match NilZero.int_of_string s with
  | Some d => Some (Z.of_int d)
  | None => None
  end.

(** [cmp_pkgrevno] on a host whose rabbitmq-server is newer, and older,
    than the version asked about. *)
Definition cmp_newer (package revno : string) : Z := 1.
Definition cmp_older (package revno : string) : Z := (-1).

Definition no_text {A} (_ : A) : string := EmptyString.

Definition hash_length (k : string * string) : Z :=
  Z.of_nat (String.length (fst k) + String.length (snd k)).

(** The objects of the unit tests: [TTLPolicy("openstack", "TTL", "foo")],
    [HAPolicy("openstack", "HA", "foo")], the same with
    [mode="exactly", sync_mode="manual", params="bar"], and
    [BasePolicy("/", "HA")]. *)
Definition ttl_example : policy :=
  mkPolicy "openstack" "TTL" "foo" "queues" "1" "ttl"
           (TTLPolicy 3600000 true).

Definition ha_example : policy :=
  mkPolicy "openstack" "HA" "foo" "queues" "1" "ha"
           (HAPolicy PyNone "all" "automatic").

Definition ha_exactly_example : policy :=
  mkPolicy "openstack" "HA" "foo" "exchanges" "0" "ha"
           (HAPolicy (PyStr "bar") "exactly" "manual").

Definition base_example : policy :=
  mkPolicy "/" "HA" "None" "queues" "1" "generic" (BasePolicy "None").

(** More collaborators: a host without [rabbitmqctl], a [check_output]
    that raises [ValueError], and a command whose output is the single byte
    [0xff], which is not UTF-8. *)
Definition check_output_missing (argv : list string) : result bytes :=
  Raise (mkExn OSError
               "[Errno 2] No such file or directory: 'rabbitmqctl'").

Definition check_output_value_error (argv : list string) : result bytes :=
  Raise (mkExn ValueError EmptyString).

Definition check_output_garbage (argv : list string) : result bytes :=
  Return [xff].

Section Policies.

(** The interpreter: [int(s)] on a [str] ([None] when it raises), the text
    of the exception [int] raises, the text of the [UnicodeDecodeError] of
    a byte sequence, and [hash] on a pair of [str]. *)
Variable int_of_str : string -> option Z.
Variable int_error_text : pyval -> string.
Variable decode_error_text : bytes -> string.
Variable hash : string * string -> Z.

(** The host: what [check_output] answers to an argument vector, and what
    [cmp_pkgrevno] answers for a package and a version. *)
Variable check_output : list string -> result bytes.
Variable cmp_pkgrevno : string -> string -> Z.

(** [int(v)]. *)
Definition py_int (v : pyval) : result Z :=
  match v with
  | PyNone => Raise (mkExn TypeError (int_error_text v))
  | PyBool b => Return (if b then 1 else 0)%Z
  | PyInt z => Return z
  | PyStr s =>
      match int_of_str s with
      | Some z => Return z
      | None => Raise (mkExn ValueError (int_error_text v))
      end
  end.

(** [b.decode("utf-8")]. *)
Definition decode_utf8 (b : bytes) : result string :=
  match code_points_of_bytes b with
  | Some _ => Return (string_of_list_byte b)
  | None => Raise (mkExn UnicodeDecodeError (decode_error_text b))
  end.

(** *** Constructors *)

Definition BasePolicy_init
           (vhost name pattern definition apply_to priority type : pyval)
  : result policy :=
  rbind (validated ApplyToTypes "ApplyToTypes" (PyStr (py_str apply_to)))
        (fun a =>
  Return (mkPolicy (py_str vhost) (py_str name) (py_str pattern) a
                   (py_str priority) (py_str type)
                   (BasePolicy (py_str definition)))).

Definition TTLPolicy_init
           (vhost name pattern apply_to priority type ttl message_ttl : pyval)
  : result policy :=
  rbind (validated ApplyToTypes "ApplyToTypes" (PyStr (py_str apply_to)))
        (fun a =>
  rbind (py_int ttl) (fun n =>
  Return (mkPolicy (py_str vhost) (py_str name) (py_str pattern) a
                   (py_str priority) (py_str type)
                   (TTLPolicy n (py_bool message_ttl))))).

Definition HAPolicy_init
           (vhost name pattern apply_to priority params type mode sync_mode
            : pyval)
  : result policy :=
  rbind (validated ApplyToTypes "ApplyToTypes" (PyStr (py_str apply_to)))
        (fun a =>
  rbind (validated ModeTypes "ModeTypes" (PyStr (py_str mode))) (fun m =>
  rbind (validated SyncModeTypes "SyncModeTypes" (PyStr (py_str sync_mode)))
        (fun sm =>
  Return (mkPolicy (py_str vhost) (py_str name) (py_str pattern) a
                   (py_str priority) (py_str type)
                   (HAPolicy params m sm))))).

(** The calls that leave every optional argument at its default. *)
Definition BasePolicy_new (vhost name : pyval) : result policy :=
  BasePolicy_init vhost name PyNone PyNone
                  (PyStr "queues") (PyStr "1") (PyStr "generic").

Definition TTLPolicy_new (vhost name pattern : pyval) : result policy :=
  TTLPolicy_init vhost name pattern (PyStr "queues") (PyStr "1")
                 (PyStr "ttl") (PyInt 3600000) (PyBool true).

Definition HAPolicy_new (vhost name pattern : pyval) : result policy :=
  HAPolicy_init vhost name pattern (PyStr "queues") (PyStr "1") PyNone
                (PyStr "ha") (PyStr "all") (PyStr "automatic").

(** *** The [definition] attribute *)

Definition TTLPolicy_definition (ttl : Z) (message_ttl : bool) : string :=
  if message_ttl
  then json_dumps (dict_display [("message-ttl", PyInt ttl)])
  else json_dumps (dict_display [("experies", PyInt ttl)]).

Definition HAPolicy_definition_dict (params : pyval) (mode sync_mode : string)
  : dict :=
  let definition := dict_display [("ha-mode", PyStr mode);
                                  ("ha-sync-mode", PyStr sync_mode)] in
  if negb (String.eqb mode "all")
  then dict_setitem definition "ha-params" params
  else definition.

Definition HAPolicy_definition (params : pyval) (mode sync_mode : string)
  : string :=
  json_dumps (HAPolicy_definition_dict params mode sync_mode).

(** [self.definition]: the stored attribute of a [BasePolicy], the property
    of the two other classes. *)
Definition definition (self : policy) : string :=
  match cls self with
  | BasePolicy d => d
  | TTLPolicy ttl message_ttl => TTLPolicy_definition ttl message_ttl
  | HAPolicy params m sm => HAPolicy_definition params m sm
  end.

(** *** [check] *)

Definition BasePolicy_check (self : policy) : M bool := ret true.

Definition HAPolicy_check (self : policy) : M bool :=
  c <- ([CmpPkgrevno "rabbitmq-server" "3.0.0"],
        Return (cmp_pkgrevno "rabbitmq-server" "3.0.0")) ;;
  if (c <? 0)%Z then
    log ("Mirroring queues cannot be enabled, only supported "
         ++ "in rabbitmq-server >= 3.0") WARNING ;;
    log ("More information at http://www.rabbitmq.com/blog/"
         ++ "2012/11/19/breaking-things-with-rabbitmq-3-0") INFO ;;
    ret false
  else ret true.

(** [self.check()]: only [HAPolicy] overrides it. *)
Definition check (self : policy) : M bool :=
  match cls self with
  | HAPolicy _ _ _ => HAPolicy_check self
  | _ => BasePolicy_check self
  end.

(** *** [set] and [clear] *)

Definition call_check_output (argv : list string) : M bytes :=
  ([CheckOutput argv], check_output argv).

Definition set_policy_argv (self : policy) : list string :=
  ["rabbitmqctl"; "set_policy"; "-p"; vhost self; name self; pattern self;
   definition self; "--apply-to"; apply_to self; "--priority";
   priority self].

Definition clear_policy_argv (self : policy) : list string :=
  ["rabbitmqctl"; "clear_policy"; "-p"; vhost self; name self].

(** [BasePolicy.set]; [None] is Python's [None]. *)
Definition BasePolicy_set (self : policy) : M (option string) :=
  c <- check self ;;
  if c then
    log ("Setting policy " ++ class_name self ++ " to vhost: '"
         ++ vhost self ++ "' with name: '" ++ name self ++ "'") DEBUG ;;
    try_except
      (out <- call_check_output (set_policy_argv self) ;;
       result <- lift (decode_utf8 out) ;;
       log result INFO ;;
       ret (Some result))
      (fun e => is_CalledProcessError e || is_ValueError e)
      (fun e =>
         let msg := "RabbitMQ failed to create policy " ++ name self in
         log (exn_str e ++ ", " ++ msg) ERROR ;;
         status_set "blocked" msg ;;
         ret None)
  else ret None.

(** [TTLPolicy.set] and [HAPolicy.set]: the body is the statement
    [super().set()], whose value is dropped; the method falls off its end. *)
Definition TTLPolicy_set (self : policy) : M (option string) :=
  BasePolicy_set self ;;
  ret None.

Definition HAPolicy_set (self : policy) : M (option string) :=
  BasePolicy_set self ;;
  ret None.

(** [self.set()]. *)
Definition set (self : policy) : M (option string) :=
  match cls self with
  | BasePolicy _ => BasePolicy_set self
  | TTLPolicy _ _ => TTLPolicy_set self
  | HAPolicy _ _ _ => HAPolicy_set self
  end.

(** [BasePolicy.clear], inherited by the two other classes. *)
Definition clear (self : policy) : M (option string) :=
  try_except
    (log ("Clearing policy " ++ class_name self ++ " to vhost: '"
          ++ vhost self ++ "' with name: '" ++ name self ++ "'") DEBUG ;;
     out <- call_check_output (clear_policy_argv self) ;;
     result <- lift (decode_utf8 out) ;;
     log result INFO ;;
     ret (Some result))
    is_CalledProcessError
    (fun e =>
       let msg := "RabbitMQ failed to clear policy " ++ name self in
       log (exn_str e ++ ", " ++ msg) ERROR ;;
       status_set "blocked" msg ;;
       ret None).

(** *** Identity *)

Definition __repr__ (self : policy) : string :=
  class_name self ++ "(vhost: '" ++ vhost self ++ "' name: '"
             ++ name self ++ "')".

Definition _key (self : policy) : string * string :=
  (vhost self, name self).

Definition __hash__ (self : policy) : Z := hash (_key self).

(** Equality of two pairs of [str]. *)
Definition key_eqb (k1 k2 : string * string) : bool :=
  String.eqb (fst k1) (fst k2) && String.eqb (snd k1) (snd k2).

(** What [other] may be in [self == other]. *)
Inductive pyobj : Type :=
| Policy (p : policy)
| Scalar (v : pyval).

(** [BasePolicy.__eq__]; [None] is [NotImplemented]. *)
Definition __eq__ (self : policy) (other : pyobj) : option bool :=
  match other with
  | Policy q => Some (key_eqb (_key self) (_key q))
  | Scalar _ => None
  end.

(** [p == q] on two policies: [p.__eq__(q)] answers. *)
Definition policy_eq (p q : policy) : bool :=
  match __eq__ p (Policy q) with
  | Some b => b
  | None => false
  end.

(** *** Vocabulary of the statements

    The messages [set] and [clear] format, the exceptions [set] absorbs,
    and what it is for a result to be a raised [ValueError]. *)

Definition setting_msg (self : policy) : string :=
  "Setting policy " ++ class_name self ++ " to vhost: '"
  ++ vhost self ++ "' with name: '" ++ name self ++ "'".

Definition clearing_msg (self : policy) : string :=
  "Clearing policy " ++ class_name self ++ " to vhost: '"
  ++ vhost self ++ "' with name: '" ++ name self ++ "'".

Definition create_failed_msg (self : policy) : string :=
  "RabbitMQ failed to create policy " ++ name self.

Definition clear_failed_msg (self : policy) : string :=
  "RabbitMQ failed to clear policy " ++ name self.

Definition caught_by_set (e : exn) : bool :=
  is_CalledProcessError e || is_ValueError e.

Ltac run_M :=
  cbv beta iota zeta
      delta [bind try_except log status_set ret lift call_check_output
             trace outcome fst snd caught_by_set].

(** Whether a text starts with a lower-case letter, as every member name
    does and no rendering of [None], of a [bool] or of an [int] does. *)
Definition head_is_lower (s : string) : bool :=
  match s with
  | EmptyString => false
  | String c _ => ((97 <=? N_of_ascii c) && (N_of_ascii c <=? 122))%N
  end.

Definition raises_ValueError {A : Type} (r : result A) : Prop :=
  exists e, r = Raise e /\ exn_cls e = ValueError.

(** The calls of [cmp_pkgrevno] in a trace. *)
Definition cmp_pkgrevno_calls (t : list event) : list (string * string) :=
  flat_map (fun ev => match ev with CmpPkgrevno p r => [(p, r)] | _ => [] end)
           t.

(** The enumerated attributes of an object hold member names. *)
Definition enumerations_valid (self : policy) : bool :=
  mem_str (apply_to self) ApplyToTypes
  && match cls self with
     | HAPolicy _ m sm => mem_str m ModeTypes && mem_str sm SyncModeTypes
     | _ => true
     end.

(** Every character of a text is printable ASCII (space to tilde). *)
Fixpoint printable_ascii (s : string) : bool :=
  match s with
  | EmptyString => true
  | String c s' =>
      ((32 <=? N_of_ascii c) && (N_of_ascii c <=? 126))%N
      && printable_ascii s'
  end.

(** *** The registry

    [POLICY_HANDLERS] maps a type tag to a class; subscripting it with
    another tag raises [KeyError] ([None] here). *)
Inductive pyclass : Type :=
| BasePolicy_class
| TTLPolicy_class
| HAPolicy_class.

Definition class_of (self : policy) : pyclass :=
  match cls self with
  | BasePolicy _ => BasePolicy_class
  | TTLPolicy _ _ => TTLPolicy_class
  | HAPolicy _ _ _ => HAPolicy_class
  end.

Definition POLICY_HANDLERS : list (string * pyclass) :=
  [("generic", BasePolicy_class);
   ("ha", HAPolicy_class);
   ("ttl", TTLPolicy_class)].

Fixpoint handlers_getitem (d : list (string * pyclass)) (k : string)
  : option pyclass :=
  match d with
  | [] => None
  | (k', c) :: d' => if String.eqb k k' then Some c else handlers_getitem d' k
  end.

(** The exception [set] and [clear] meet when the command answers [r]:
    the one [check_output] raises, or the [UnicodeDecodeError] of an
    output that is not UTF-8. *)
Inductive command_fails : result bytes -> exn -> Prop :=
| fails_raised (e : exn) : command_fails (Raise e) e
| fails_undecodable (out : bytes) :
    code_points_of_bytes out = None ->
    command_fails (Return out)
                  (mkExn UnicodeDecodeError (decode_error_text out)).

Inductive command_prints : result bytes -> string -> Prop :=
| prints_text (out : bytes) :
    code_points_of_bytes out <> None ->
    command_prints (Return out) (string_of_list_byte out).

(** The four shapes of a run of [BasePolicy.set]. *)
Inductive set_run (self : policy) (t : list event)
  : M (option string) -> Prop :=
| run_skipped :
    check self = (t, Return false) ->
    set_run self t (t, Return None)
| run_succeeded (text : string) :
    check self = (t, Return true) ->
    command_prints (check_output (set_policy_argv self)) text ->
    set_run self t
            ((t ++ [Log (setting_msg self) DEBUG;
                    CheckOutput (set_policy_argv self);
                    Log text INFO])%list,
             Return (Some text))
| run_absorbed (e : exn) :
    check self = (t, Return true) ->
    command_fails (check_output (set_policy_argv self)) e ->
    caught_by_set e = true ->
    set_run self t
            ((t ++ [Log (setting_msg self) DEBUG;
                    CheckOutput (set_policy_argv self);
                    Log (exn_str e ++ ", " ++ create_failed_msg self) ERROR;
                    StatusSet "blocked" (create_failed_msg self)])%list,
             Return None)
| run_propagated (e : exn) :
    check self = (t, Return true) ->
    check_output (set_policy_argv self) = Raise e ->
    caught_by_set e = false ->
    set_run self t
            ((t ++ [Log (setting_msg self) DEBUG;
                    CheckOutput (set_policy_argv self)])%list,
             Raise e).

(** [set] absorbed the exception [e]: it returned [None], logged the
    exception and the message at error level, and reported the blocked
    status, each once. *)
Definition set_reports_failure (self : policy) (e : exn) : Prop :=
  outcome (set self) = Return None
  /\ error_logs (trace (set self))
     = [exn_str e ++ ", " ++ "RabbitMQ failed to create policy " ++ name self]
  /\ status_set_calls (trace (set self))
     = [("blocked", "RabbitMQ failed to create policy " ++ name self)].

(** The exception [e] left the method and nothing was reported. *)
Definition raises_unreported (run : M (option string)) (e : exn) : Prop :=
  outcome run = Raise e
  /\ status_set_calls (trace run) = []
  /\ error_logs (trace run) = [].

(** One of the three assignments was made on [self] and gave [self']. *)
Inductive assigned (self self' : policy) : Prop :=
| assigned_apply_to (value : pyval) :
    set_apply_to self value = Return self' -> assigned self self'
| assigned_mode (value : pyval) :
    set_mode self value = Return self' -> assigned self self'
| assigned_sync_mode (value : pyval) :
    set_sync_mode self value = Return self' -> assigned self self'.

(** One of the three constructors built [p]. *)
Inductive constructed (p : policy) : Prop :=
| constructed_base (v n pat def a pr ty : pyval) :
    BasePolicy_init v n pat def a pr ty = Return p -> constructed p
| constructed_ttl (v n pat a pr ty ttl mt : pyval) :
    TTLPolicy_init v n pat a pr ty ttl mt = Return p -> constructed p
| constructed_ha (v n pat a pr params ty mo sy : pyval) :
    HAPolicy_init v n pat a pr params ty mo sy = Return p -> constructed p.

(** Objects reachable from a constructor by assignments. *)
Inductive reachable : policy -> Prop :=
| reachable_constructed (p : policy) : constructed p -> reachable p
| reachable_assigned (p p' : policy) :
    reachable p -> assigned p p' -> reachable p'.

(** The [ValueError] of a property setter. *)
Definition not_in (value : pyval) (enum_name : string) : exn :=
  mkExn ValueError
        ("Value " ++ py_str value ++ " not in " ++ enum_name ++ ".").

(* ------------------------------------------------------------------ *)
(** ** Texts and enumerations: basic facts *)

Lemma ApplyToTypes_members : ApplyToTypes = ["queues"; "exchanges"; "all"].
Proof. reflexivity. Qed.

Lemma ModeTypes_members : ModeTypes = ["all"; "exactly"; "nodes"].
Proof. reflexivity. Qed.

Lemma SyncModeTypes_members : SyncModeTypes = ["automatic"; "manual"].
Proof. reflexivity. Qed.

Lemma key_eqb_eq (k1 k2 : string * string) :
  key_eqb k1 k2 = true <-> k1 = k2.
Proof.
  destruct k1 as [a b], k2 as [c d]; unfold key_eqb; simpl.
  rewrite andb_true_iff, !String.eqb_eq.
  split.
  - intros [-> ->]; reflexivity.
  - intros H; inversion H; auto.
Qed.

Lemma in_members_PyStr (members : list string) (value : pyval) :
  in_members members value = true ->
  value = PyStr (py_str value) /\ mem_str (py_str value) members = true.
Proof.
  destruct value as [| b | z | s]; simpl; try discriminate.
  intros H; split; [reflexivity | exact H].
Qed.

Lemma validated_member (members : list string) (ename : string)
      (value : pyval) :
  in_members members value = true ->
  validated members ename value = Return (py_str value).
Proof. unfold validated; intros ->; reflexivity. Qed.

Lemma validated_not_member (members : list string) (ename : string)
      (value : pyval) :
  in_members members value = false ->
  exists e, validated members ename value = Raise e
            /\ exn_cls e = ValueError
            /\ exn_str e = "Value " ++ py_str value ++ " not in " ++ ename ++ ".".
Proof.
  unfold validated; intros ->.
  eexists; split; [reflexivity | split; reflexivity].
Qed.

(* ------------------------------------------------------------------ *)
(** ** The computed definitions *)

(** C3.  The definition of a [TTLPolicy] whose [ttl] is the integer [X] is
    the JSON text of the one-key object [{"message-ttl": X}] when
    [message_ttl] is true and of [{"experies": X}], spelled so, when it is
    false; written out, the text is the quoted key, a colon and a blank, and
    the decimal digits of [X], between braces. *)
Theorem C3_ttl_definition (self : policy) (X : Z) (message_ttl : bool) :
  cls self = TTLPolicy X message_ttl ->
  let key := if message_ttl then "message-ttl" else "experies" in
  definition self = json_dumps [(key, PyInt X)]
  /\ definition self = "{" ++ dq ++ key ++ dq ++ ": " ++ string_of_Z X ++ "}".
Proof.
  intros Hcls key. unfold definition. rewrite Hcls.
  unfold TTLPolicy_definition, key.
  destruct message_ttl; split; reflexivity.
Qed.

(** C7.  The definition of an [HAPolicy] is the JSON text of an object
    that maps ["ha-mode"] to the mode and ["ha-sync-mode"] to the sync mode,
    in that order, followed by ["ha-params"] mapped to the configured
    params exactly when the mode is not ["all"]; the object has no other
    key. *)
Theorem C7_ha_definition (self : policy) (params : pyval) (m sm : string) :
  cls self = HAPolicy params m sm ->
  let d := ([("ha-mode", PyStr m); ("ha-sync-mode", PyStr sm)]
            ++ (if String.eqb m "all" then [] else [("ha-params", params)]))%list in
  definition self = json_dumps d
  /\ dict_get d "ha-mode" = Some (PyStr m)
  /\ dict_get d "ha-sync-mode" = Some (PyStr sm)
  /\ (dict_get d "ha-params" <> None <-> m <> "all")
  /\ (m <> "all" -> dict_get d "ha-params" = Some params)
  /\ (forall k, dict_get d k <> None ->
                k = "ha-mode" \/ k = "ha-sync-mode" \/ k = "ha-params").
Proof.
  intros Hcls d. unfold definition. rewrite Hcls.
  unfold HAPolicy_definition, HAPolicy_definition_dict. subst d.
  destruct (String.eqb_spec m "all") as [Hall | Hnot].
  - repeat split; try reflexivity.
    + intros H _. apply H. reflexivity.
    + intros H. contradiction.
    + intros H. contradiction.
    + intros k. simpl.
      destruct (String.eqb_spec k "ha-mode"); [auto |].
      destruct (String.eqb_spec k "ha-sync-mode"); [auto |].
      intros H; contradiction.
  - repeat split; try reflexivity.
    + intros _. exact Hnot.
    + intros _. discriminate.
    + intros k. simpl.
      destruct (String.eqb_spec k "ha-mode"); [auto |].
      destruct (String.eqb_spec k "ha-sync-mode"); [auto |].
      destruct (String.eqb_spec k "ha-params"); [auto |].
      intros H; contradiction.
Qed.

(* ------------------------------------------------------------------ *)
(** ** Identity *)

(** C4.  Two policies, of whatever classes, are equal exactly when their
    [(vhost, name)] pairs are equal, [__eq__] never answers
    [NotImplemented] for them, and equal pairs give equal hashes; no other
    attribute takes part. *)
Theorem C4_equality_by_key (p q : policy) :
  (policy_eq p q = true <-> (vhost p, name p) = (vhost q, name q))
  /\ __eq__ p (Policy q) = Some (policy_eq p q)
  /\ ((vhost p, name p) = (vhost q, name q) -> __hash__ p = __hash__ q).
Proof.
  repeat split.
  - unfold policy_eq, __eq__. intros H. apply key_eqb_eq in H. exact H.
  - unfold policy_eq, __eq__. intros H. apply key_eqb_eq. exact H.
  - unfold __hash__, _key. intros H. rewrite H. reflexivity.
Qed.

(* ------------------------------------------------------------------ *)
(** ** Construction with the defaults *)

Lemma BasePolicy_init_fields
      (v n pat def a pr ty : pyval) (p : policy) :
  BasePolicy_init v n pat def a pr ty = Return p ->
  vhost p = py_str v /\ name p = py_str n /\ pattern p = py_str pat
  /\ definition p = py_str def /\ apply_to p = py_str a
  /\ priority p = py_str pr /\ type p = py_str ty
  /\ cls p = BasePolicy (py_str def).
Proof.
  unfold BasePolicy_init, validated.
  destruct (in_members ApplyToTypes (PyStr (py_str a))); simpl.
  - intros H; inversion H; subst; simpl. repeat split; reflexivity.
  - discriminate.
Qed.

(* ------------------------------------------------------------------ *)
(** ** Runs of [check], [set] and [clear] *)

Lemma check_runs (self : policy) :
  exists t b, check self = (t, Return b)
              /\ check_output_calls t = []
              /\ status_set_calls t = []
              /\ error_logs t = [].
Proof.
  unfold check, HAPolicy_check, BasePolicy_check.
  destruct (cls self); run_M;
    try (exists [], true; repeat split; reflexivity).
  destruct (cmp_pkgrevno "rabbitmq-server" "3.0.0" <? 0)%Z;
    eexists; eexists; repeat split; reflexivity.
Qed.

Lemma HAPolicy_check_run (self : policy) (params : pyval) (m sm : string) :
  cls self = HAPolicy params m sm ->
  check self
  = if (cmp_pkgrevno "rabbitmq-server" "3.0.0" <? 0)%Z
    then ([CmpPkgrevno "rabbitmq-server" "3.0.0";
           Log ("Mirroring queues cannot be enabled, only supported "
                ++ "in rabbitmq-server >= 3.0") WARNING;
           Log ("More information at http://www.rabbitmq.com/blog/"
                ++ "2012/11/19/breaking-things-with-rabbitmq-3-0") INFO],
          Return false)
    else ([CmpPkgrevno "rabbitmq-server" "3.0.0"], Return true).
Proof.
  intros Hcls. unfold check, HAPolicy_check. rewrite Hcls. run_M.
  destruct (cmp_pkgrevno "rabbitmq-server" "3.0.0" <? 0)%Z; reflexivity.
Qed.

Lemma other_check_run (self : policy) :
  (forall params m sm, cls self <> HAPolicy params m sm) ->
  check self = ([], Return true).
Proof.
  intros H. unfold check, BasePolicy_check.
  destruct (cls self) eqn:E; try reflexivity.
  exfalso. eapply H. reflexivity.
Qed.

Section SetRuns.

Variable self : policy.
Variable t : list event.

Lemma set_skipped :
  check self = (t, Return false) ->
  BasePolicy_set self = (t, Return None).
Proof.
  intros Hc. unfold BasePolicy_set. rewrite Hc. run_M.
  rewrite app_nil_r. reflexivity.
Qed.

Hypothesis check_true : check self = (t, Return true).

Lemma set_succeeds (out : bytes) (text : string) :
  check_output (set_policy_argv self) = Return out ->
  decode_utf8 out = Return text ->
  BasePolicy_set self
  = ((t ++ [Log (setting_msg self) DEBUG;
            CheckOutput (set_policy_argv self);
            Log text INFO])%list,
     Return (Some text)).
Proof.
  intros Hco Hdec. unfold BasePolicy_set. rewrite check_true. run_M.
  rewrite Hco, Hdec. reflexivity.
Qed.

Lemma set_absorbs (e : exn) :
  check_output (set_policy_argv self) = Raise e ->
  caught_by_set e = true ->
  BasePolicy_set self
  = ((t ++ [Log (setting_msg self) DEBUG;
            CheckOutput (set_policy_argv self);
            Log (exn_str e ++ ", " ++ create_failed_msg self) ERROR;
            StatusSet "blocked" (create_failed_msg self)])%list,
     Return None).
Proof.
  intros Hco Hc. unfold BasePolicy_set. rewrite check_true. run_M.
  rewrite Hco. unfold caught_by_set in Hc. rewrite Hc. reflexivity.
Qed.

Lemma set_propagates (e : exn) :
  check_output (set_policy_argv self) = Raise e ->
  caught_by_set e = false ->
  BasePolicy_set self
  = ((t ++ [Log (setting_msg self) DEBUG;
            CheckOutput (set_policy_argv self)])%list,
     Raise e).
Proof.
  intros Hco Hc. unfold BasePolicy_set. rewrite check_true. run_M.
  rewrite Hco. unfold caught_by_set in Hc. rewrite Hc. reflexivity.
Qed.

Lemma set_absorbs_undecodable (out : bytes) :
  check_output (set_policy_argv self) = Return out ->
  code_points_of_bytes out = None ->
  BasePolicy_set self
  = ((t ++ [Log (setting_msg self) DEBUG;
            CheckOutput (set_policy_argv self);
            Log (decode_error_text out ++ ", " ++ create_failed_msg self)
                ERROR;
            StatusSet "blocked" (create_failed_msg self)])%list,
     Return None).
Proof.
  intros Hco Hdec. unfold BasePolicy_set. rewrite check_true. run_M.
  rewrite Hco. unfold decode_utf8. rewrite Hdec. reflexivity.
Qed.

End SetRuns.

Lemma check_output_calls_app (t1 t2 : list event) :
  check_output_calls (t1 ++ t2)
  = (check_output_calls t1 ++ check_output_calls t2)%list.
Proof. apply flat_map_app. Qed.

Lemma status_set_calls_app (t1 t2 : list event) :
  status_set_calls (t1 ++ t2)
  = (status_set_calls t1 ++ status_set_calls t2)%list.
Proof. apply flat_map_app. Qed.

Lemma error_logs_app (t1 t2 : list event) :
  error_logs (t1 ++ t2) = (error_logs t1 ++ error_logs t2)%list.
Proof. apply flat_map_app. Qed.

(** The two overriding [set] methods make the calls of [BasePolicy.set]
    and answer [None] whenever it returns. *)
Lemma TTLPolicy_set_run (self : policy) :
  TTLPolicy_set self
  = (trace (BasePolicy_set self),
     match outcome (BasePolicy_set self) with
     | Return _ => Return None
     | Raise e => Raise e
     end).
Proof.
  unfold TTLPolicy_set. run_M.
  destruct (BasePolicy_set self) as [t [r | e]]; [| reflexivity].
  rewrite app_nil_r. reflexivity.
Qed.

Lemma HAPolicy_set_run (self : policy) :
  HAPolicy_set self
  = (trace (BasePolicy_set self),
     match outcome (BasePolicy_set self) with
     | Return _ => Return None
     | Raise e => Raise e
     end).
Proof.
  unfold HAPolicy_set. run_M.
  destruct (BasePolicy_set self) as [t [r | e]]; [| reflexivity].
  rewrite app_nil_r. reflexivity.
Qed.

Lemma set_trace (self : policy) :
  trace (set self) = trace (BasePolicy_set self).
Proof.
  unfold set. destruct (cls self);
    [reflexivity | rewrite TTLPolicy_set_run | rewrite HAPolicy_set_run];
    reflexivity.
Qed.

Lemma set_outcome (self : policy) :
  outcome (set self)
  = match cls self with
    | BasePolicy _ => outcome (BasePolicy_set self)
    | _ => match outcome (BasePolicy_set self) with
           | Return _ => Return None
           | Raise e => Raise e
           end
    end.
Proof.
  unfold set. destruct (cls self);
    [reflexivity | rewrite TTLPolicy_set_run | rewrite HAPolicy_set_run];
    reflexivity.
Qed.

(** Whenever [check] answers true, [set] runs [rabbitmqctl] once, on the
    [set_policy] vector. *)
Lemma set_executes (self : policy) :
  outcome (check self) = Return true ->
  check_output_calls (trace (set self)) = [set_policy_argv self].
Proof.
  intros Hc. rewrite set_trace.
  destruct (check_runs self) as (t & b & Ht & Hco & _ & _).
  rewrite Ht in Hc. simpl in Hc. inversion Hc; subst b.
  destruct (check_output (set_policy_argv self)) as [out | e] eqn:Hout.
  - destruct (code_points_of_bytes out) as [cps |] eqn:Hdec.
    + rewrite (set_succeeds self t Ht out (string_of_list_byte out) Hout).
      * unfold trace; simpl. rewrite check_output_calls_app, Hco.
        reflexivity.
      * unfold decode_utf8. rewrite Hdec. reflexivity.
    + rewrite (set_absorbs_undecodable self t Ht out Hout Hdec).
      unfold trace; simpl. rewrite check_output_calls_app, Hco.
      reflexivity.
  - destruct (caught_by_set e) eqn:Hcaught.
    + rewrite (set_absorbs self t Ht e Hout Hcaught).
      unfold trace; simpl. rewrite check_output_calls_app, Hco.
      reflexivity.
    + rewrite (set_propagates self t Ht e Hout Hcaught).
      unfold trace; simpl. rewrite check_output_calls_app, Hco.
      reflexivity.
Qed.

(* ------------------------------------------------------------------ *)
(** ** The version gate of [HAPolicy] *)

(** C6.  For an [HAPolicy]: when [cmp_pkgrevno] reports the installed
    rabbitmq-server older than 3.0.0 (a negative answer), [check] returns
    false and [set] runs no command and returns [None]; when the answer is
    zero or positive, [check] returns true and [set] runs the [set_policy]
    command, once. *)
Theorem C6_ha_version_gate (self : policy) (params : pyval) (m sm : string) :
  cls self = HAPolicy params m sm ->
  ((cmp_pkgrevno "rabbitmq-server" "3.0.0" < 0)%Z ->
   outcome (check self) = Return false
   /\ check_output_calls (trace (set self)) = []
   /\ status_set_calls (trace (set self)) = []
   /\ outcome (set self) = Return None)
  /\ ((0 <= cmp_pkgrevno "rabbitmq-server" "3.0.0")%Z ->
      outcome (check self) = Return true
      /\ check_output_calls (trace (set self)) = [set_policy_argv self]).
Proof.
  intros Hcls. pose proof (HAPolicy_check_run self params m sm Hcls) as Hrun.
  split; intros Hcmp.
  - apply Z.ltb_lt in Hcmp. rewrite Hcmp in Hrun.
    rewrite set_trace, set_outcome, Hcls.
    rewrite (set_skipped self _ Hrun). rewrite Hrun.
    repeat split; reflexivity.
  - apply Z.ltb_ge in Hcmp. rewrite Hcmp in Hrun.
    assert (Hc : outcome (check self) = Return true)
      by (rewrite Hrun; reflexivity).
    split; [exact Hc | apply set_executes; exact Hc].
Qed.

(* ------------------------------------------------------------------ *)
(** ** Failures of the command *)

(** C8.  When [check] answers true and [check_output] raises
    [CalledProcessError] during [set], the call returns [None] and no
    exception leaves it, exactly one entry is logged at error severity (the
    text of the exception followed by the message), and [status_set] is
    called exactly once, with the state [blocked] and the message
    [RabbitMQ failed to create policy <name>]. *)
Theorem C8_set_failure_absorbed (self : policy) (e : exn) :
  outcome (check self) = Return true ->
  check_output (set_policy_argv self) = Raise e ->
  exn_cls e = CalledProcessError ->
  outcome (set self) = Return None
  /\ error_logs (trace (set self))
     = [exn_str e ++ ", " ++ "RabbitMQ failed to create policy " ++ name self]
  /\ status_set_calls (trace (set self))
     = [("blocked", "RabbitMQ failed to create policy " ++ name self)].
Proof.
  intros Hc Hout He.
  destruct (check_runs self) as (t & b & Ht & _ & Hst & Herr).
  rewrite Ht in Hc. simpl in Hc. inversion Hc; subst b.
  assert (Hcaught : caught_by_set e = true).
  { unfold caught_by_set, is_CalledProcessError. rewrite He. reflexivity. }
  pose proof (set_absorbs self t Ht e Hout Hcaught) as Hrun.
  rewrite set_trace, set_outcome, Hrun.
  unfold trace, outcome; simpl fst; simpl snd.
  rewrite error_logs_app, status_set_calls_app, Hst, Herr.
  split; [destruct (cls self); reflexivity |].
  split; reflexivity.
Qed.

Lemma clear_succeeds (self : policy) (out : bytes) :
  check_output (clear_policy_argv self) = Return out ->
  code_points_of_bytes out <> None ->
  clear self
  = ([Log (clearing_msg self) DEBUG;
      CheckOutput (clear_policy_argv self);
      Log (string_of_list_byte out) INFO],
     Return (Some (string_of_list_byte out))).
Proof.
  intros Hout Hdec. unfold clear. run_M. rewrite Hout.
  unfold decode_utf8. destruct (code_points_of_bytes out); [| contradiction].
  reflexivity.
Qed.

Lemma clear_absorbs (self : policy) (e : exn) :
  check_output (clear_policy_argv self) = Raise e ->
  is_CalledProcessError e = true ->
  clear self
  = ([Log (clearing_msg self) DEBUG;
      CheckOutput (clear_policy_argv self);
      Log (exn_str e ++ ", " ++ clear_failed_msg self) ERROR;
      StatusSet "blocked" (clear_failed_msg self)],
     Return None).
Proof.
  intros Hout He. unfold clear. run_M. rewrite Hout, He. reflexivity.
Qed.

Lemma clear_executes (self : policy) :
  check_output_calls (trace (clear self)) = [clear_policy_argv self].
Proof.
  unfold clear. run_M.
  destruct (check_output (clear_policy_argv self)) as [out | e].
  - unfold decode_utf8. destruct (code_points_of_bytes out).
    + reflexivity.
    + cbv beta iota. unfold is_CalledProcessError. simpl exn_cls.
      reflexivity.
  - destruct (is_CalledProcessError e); reflexivity.
Qed.

(** C9.  [clear] runs exactly the vector
    [rabbitmqctl clear_policy -p <vhost> <name>].  When the command
    succeeds, [clear] returns its captured output, as text, and does not
    touch the status; when it fails with [CalledProcessError], [clear]
    returns [None], logs the error, and reports the blocked status exactly
    once, with [RabbitMQ failed to clear policy <name>]. *)
Theorem C9_clear (self : policy) :
  check_output_calls (trace (clear self))
  = [["rabbitmqctl"; "clear_policy"; "-p"; vhost self; name self]]
  /\ (forall out : bytes,
        check_output (clear_policy_argv self) = Return out ->
        code_points_of_bytes out <> None ->
        outcome (clear self) = Return (Some (string_of_list_byte out))
        /\ status_set_calls (trace (clear self)) = []
        /\ error_logs (trace (clear self)) = [])
  /\ (forall e : exn,
        check_output (clear_policy_argv self) = Raise e ->
        exn_cls e = CalledProcessError ->
        outcome (clear self) = Return None
        /\ error_logs (trace (clear self))
           = [exn_str e ++ ", " ++ "RabbitMQ failed to clear policy "
                      ++ name self]
        /\ status_set_calls (trace (clear self))
           = [("blocked", "RabbitMQ failed to clear policy " ++ name self)]).
Proof.
  split; [apply clear_executes |].
  split.
  - intros out Hout Hdec. rewrite (clear_succeeds self out Hout Hdec).
    repeat split; reflexivity.
  - intros e Hout He.
    assert (Hc : is_CalledProcessError e = true)
      by (unfold is_CalledProcessError; rewrite He; reflexivity).
    rewrite (clear_absorbs self e Hout Hc).
    repeat split; reflexivity.
Qed.

(* ------------------------------------------------------------------ *)
(** ** Validated enumerations *)

Lemma string_of_Z_head (z : Z) : head_is_lower (string_of_Z z) = false.
Proof.
  unfold string_of_Z, Z.to_int.
  destruct z as [| p | p]; [reflexivity | |].
  - unfold NilZero.string_of_int, NilZero.string_of_uint.
    destruct (Pos.to_uint p); reflexivity.
  - reflexivity.
Qed.

Lemma mem_str_head (s : string) (names : list string) :
  forallb head_is_lower names = true ->
  mem_str s names = true -> head_is_lower s = true.
Proof.
  induction names as [| x names IH]; simpl; [discriminate |].
  intros Hall Hmem.
  apply andb_true_iff in Hall. destruct Hall as [Hx Hall].
  apply orb_true_iff in Hmem. destruct Hmem as [Heq | Hmem].
  - apply String.eqb_eq in Heq. subst x. exact Hx.
  - apply IH; assumption.
Qed.

(** [str(v)] names a member only when [v] is that [str] itself. *)
Lemma member_after_str (names : list string) (v : pyval) :
  forallb head_is_lower names = true ->
  in_members names (PyStr (py_str v)) = in_members names v.
Proof.
  intros Hall. destruct v as [| b | z | s]; simpl; try reflexivity.
  - destruct (mem_str "None" names) eqn:E; [| reflexivity].
    apply (mem_str_head _ _ Hall) in E. discriminate.
  - destruct b.
    + destruct (mem_str "True" names) eqn:E; [| reflexivity].
      apply (mem_str_head _ _ Hall) in E. discriminate.
    + destruct (mem_str "False" names) eqn:E; [| reflexivity].
      apply (mem_str_head _ _ Hall) in E. discriminate.
  - destruct (mem_str (string_of_Z z) names) eqn:E; [| reflexivity].
    apply (mem_str_head _ _ Hall) in E.
    rewrite string_of_Z_head in E. discriminate.
Qed.

Lemma set_apply_to_spec (self : policy) (value : pyval) :
  (in_members ApplyToTypes value = false ->
   raises_ValueError (set_apply_to self value))
  /\ (in_members ApplyToTypes value = true ->
      exists self', set_apply_to self value = Return self'
                    /\ PyStr (apply_to self') = value
                    /\ cls self' = cls self
                    /\ _key self' = _key self).
Proof.
  unfold set_apply_to. split; intros H.
  - destruct (validated_not_member _ "ApplyToTypes" _ H) as (e & -> & He & _).
    exists e. split; [reflexivity | exact He].
  - rewrite (validated_member _ "ApplyToTypes" _ H). simpl.
    eexists; split; [reflexivity |].
    destruct (in_members_PyStr _ _ H) as [Hv _].
    unfold apply_to; simpl. rewrite <- Hv. repeat split; reflexivity.
Qed.

Lemma set_mode_spec (self : policy) (params : pyval) (m sm : string)
      (value : pyval) :
  cls self = HAPolicy params m sm ->
  (in_members ModeTypes value = false ->
   raises_ValueError (set_mode self value))
  /\ (in_members ModeTypes value = true ->
      exists self', set_mode self value = Return self'
                    /\ option_map PyStr (mode self') = Some value
                    /\ sync_mode self' = Some sm
                    /\ apply_to self' = apply_to self).
Proof.
  intros Hcls. unfold set_mode. rewrite Hcls. split; intros H.
  - destruct (validated_not_member _ "ModeTypes" _ H) as (e & -> & He & _).
    exists e. split; [reflexivity | exact He].
  - rewrite (validated_member _ "ModeTypes" _ H). simpl.
    eexists; split; [reflexivity |].
    destruct (in_members_PyStr _ _ H) as [Hv _].
    unfold mode; simpl. rewrite <- Hv. repeat split; reflexivity.
Qed.

Lemma set_sync_mode_spec (self : policy) (params : pyval) (m sm : string)
      (value : pyval) :
  cls self = HAPolicy params m sm ->
  (in_members SyncModeTypes value = false ->
   raises_ValueError (set_sync_mode self value))
  /\ (in_members SyncModeTypes value = true ->
      exists self', set_sync_mode self value = Return self'
                    /\ option_map PyStr (sync_mode self') = Some value
                    /\ mode self' = Some m
                    /\ apply_to self' = apply_to self).
Proof.
  intros Hcls. unfold set_sync_mode. rewrite Hcls. split; intros H.
  - destruct (validated_not_member _ "SyncModeTypes" _ H)
      as (e & -> & He & _).
    exists e. split; [reflexivity | exact He].
  - rewrite (validated_member _ "SyncModeTypes" _ H). simpl.
    eexists; split; [reflexivity |].
    destruct (in_members_PyStr _ _ H) as [Hv _].
    unfold sync_mode; simpl. rewrite <- Hv. repeat split; reflexivity.
Qed.

Lemma enumerations_lower :
  forallb head_is_lower ApplyToTypes = true
  /\ forallb head_is_lower ModeTypes = true
  /\ forallb head_is_lower SyncModeTypes = true.
Proof. repeat split; reflexivity. Qed.

Lemma BasePolicy_init_spec (v n pat def a pr ty : pyval) :
  (in_members ApplyToTypes a = false ->
   raises_ValueError (BasePolicy_init v n pat def a pr ty))
  /\ (in_members ApplyToTypes a = true ->
      exists p, BasePolicy_init v n pat def a pr ty = Return p
                /\ PyStr (apply_to p) = a).
Proof.
  destruct enumerations_lower as (Ha & _ & _).
  unfold BasePolicy_init. split; intros H.
  - rewrite <- (member_after_str _ a Ha) in H.
    destruct (validated_not_member _ "ApplyToTypes" _ H) as (e & -> & He & _).
    exists e. split; [reflexivity | exact He].
  - destruct (in_members_PyStr _ _ H) as [Hv _].
    rewrite <- (member_after_str _ a Ha) in H.
    rewrite (validated_member _ "ApplyToTypes" _ H). simpl.
    eexists; split; [reflexivity |].
    unfold apply_to; simpl. rewrite <- Hv. reflexivity.
Qed.

Lemma TTLPolicy_init_spec (v n pat a pr ty ttl mt : pyval) :
  (in_members ApplyToTypes a = false ->
   raises_ValueError (TTLPolicy_init v n pat a pr ty ttl mt))
  /\ (in_members ApplyToTypes a = true ->
      match TTLPolicy_init v n pat a pr ty ttl mt with
      | Return p => PyStr (apply_to p) = a
      | Raise e => py_int ttl = Raise e
      end).
Proof.
  destruct enumerations_lower as (Ha & _ & _).
  unfold TTLPolicy_init. split; intros H.
  - rewrite <- (member_after_str _ a Ha) in H.
    destruct (validated_not_member _ "ApplyToTypes" _ H) as (e & -> & He & _).
    exists e. split; [reflexivity | exact He].
  - destruct (in_members_PyStr _ _ H) as [Hv _].
    rewrite <- (member_after_str _ a Ha) in H.
    rewrite (validated_member _ "ApplyToTypes" _ H). simpl.
    destruct (py_int ttl) as [k | e]; simpl; [| reflexivity].
    unfold apply_to; simpl. rewrite <- Hv. reflexivity.
Qed.

Lemma HAPolicy_init_spec (v n pat a pr params ty mo sy : pyval) :
  (in_members ApplyToTypes a = false
   \/ in_members ModeTypes mo = false
   \/ in_members SyncModeTypes sy = false ->
   raises_ValueError (HAPolicy_init v n pat a pr params ty mo sy))
  /\ (in_members ApplyToTypes a = true ->
      in_members ModeTypes mo = true ->
      in_members SyncModeTypes sy = true ->
      exists p, HAPolicy_init v n pat a pr params ty mo sy = Return p
                /\ PyStr (apply_to p) = a
                /\ option_map PyStr (mode p) = Some mo
                /\ option_map PyStr (sync_mode p) = Some sy).
Proof.
  destruct enumerations_lower as (Ha & Hm & Hs).
  unfold HAPolicy_init.
  rewrite <- (member_after_str _ a Ha), <- (member_after_str _ mo Hm),
    <- (member_after_str _ sy Hs).
  split.
  - intros H.
    destruct (in_members ApplyToTypes (PyStr (py_str a))) eqn:Ea.
    + rewrite (validated_member _ "ApplyToTypes" _ Ea). simpl rbind.
      destruct (in_members ModeTypes (PyStr (py_str mo))) eqn:Em.
      * rewrite (validated_member _ "ModeTypes" _ Em). simpl rbind.
        destruct (in_members SyncModeTypes (PyStr (py_str sy))) eqn:Es.
        -- destruct H as [H | [H | H]]; discriminate.
        -- destruct (validated_not_member _ "SyncModeTypes" _ Es)
             as (e & -> & He & _).
           exists e. split; [reflexivity | exact He].
      * destruct (validated_not_member _ "ModeTypes" _ Em)
          as (e & -> & He & _).
        exists e. split; [reflexivity | exact He].
    + destruct (validated_not_member _ "ApplyToTypes" _ Ea)
        as (e & -> & He & _).
      exists e. split; [reflexivity | exact He].
  - intros Ea Em Es.
    rewrite (validated_member _ "ApplyToTypes" _ Ea),
      (validated_member _ "ModeTypes" _ Em),
      (validated_member _ "SyncModeTypes" _ Es). simpl.
    rewrite (member_after_str _ a Ha) in Ea.
    rewrite (member_after_str _ mo Hm) in Em.
    rewrite (member_after_str _ sy Hs) in Es.
    destruct (in_members_PyStr _ _ Ea) as [Hva _].
    destruct (in_members_PyStr _ _ Em) as [Hvm _].
    destruct (in_members_PyStr _ _ Es) as [Hvs _].
    eexists; split; [reflexivity |].
    unfold apply_to, mode, sync_mode; simpl.
    rewrite <- Hva, <- Hvm, <- Hvs. repeat split; reflexivity.
Qed.

(** C5.  Assigning [apply_to] (on any class) or [mode] and [sync_mode] (on
    an [HAPolicy]), by the constructor or by a later assignment: a value
    that is not a member of the enumeration raises [ValueError]; a member
    is accepted and the property then reads as that very value.  In the
    [TTLPolicy] constructor the only other failure is that of
    [int(ttl)]. *)
Theorem C5_validated_enumerations :
  (forall self value,
      (in_members ApplyToTypes value = false ->
       raises_ValueError (set_apply_to self value))
      /\ (in_members ApplyToTypes value = true ->
          exists self', set_apply_to self value = Return self'
                        /\ PyStr (apply_to self') = value))
  /\ (forall self params m sm value,
         cls self = HAPolicy params m sm ->
         (in_members ModeTypes value = false ->
          raises_ValueError (set_mode self value))
         /\ (in_members ModeTypes value = true ->
             exists self', set_mode self value = Return self'
                           /\ option_map PyStr (mode self') = Some value))
  /\ (forall self params m sm value,
         cls self = HAPolicy params m sm ->
         (in_members SyncModeTypes value = false ->
          raises_ValueError (set_sync_mode self value))
         /\ (in_members SyncModeTypes value = true ->
             exists self', set_sync_mode self value = Return self'
                           /\ option_map PyStr (sync_mode self') = Some value))
  /\ (forall v n pat def a pr ty,
         (in_members ApplyToTypes a = false ->
          raises_ValueError (BasePolicy_init v n pat def a pr ty))
         /\ (in_members ApplyToTypes a = true ->
             exists p, BasePolicy_init v n pat def a pr ty = Return p
                       /\ PyStr (apply_to p) = a))
  /\ (forall v n pat a pr ty ttl mt,
         (in_members ApplyToTypes a = false ->
          raises_ValueError (TTLPolicy_init v n pat a pr ty ttl mt))
         /\ (in_members ApplyToTypes a = true ->
             match TTLPolicy_init v n pat a pr ty ttl mt with
             | Return p => PyStr (apply_to p) = a
             | Raise e => py_int ttl = Raise e
             end))
  /\ (forall v n pat a pr params ty mo sy,
         (in_members ApplyToTypes a = false
          \/ in_members ModeTypes mo = false
          \/ in_members SyncModeTypes sy = false ->
          raises_ValueError (HAPolicy_init v n pat a pr params ty mo sy))
         /\ (in_members ApplyToTypes a = true ->
             in_members ModeTypes mo = true ->
             in_members SyncModeTypes sy = true ->
             exists p, HAPolicy_init v n pat a pr params ty mo sy = Return p
                       /\ PyStr (apply_to p) = a
                       /\ option_map PyStr (mode p) = Some mo
                       /\ option_map PyStr (sync_mode p) = Some sy)).
Proof.
  split; [| split; [| split; [| split; [| split]]]].
  - intros self value.
    destruct (set_apply_to_spec self value) as [Hn Hy].
    split; [exact Hn |].
    intros H. destruct (Hy H) as (self' & Hr & Hv & _).
    exists self'. split; assumption.
  - intros self params m sm value Hcls.
    destruct (set_mode_spec self params m sm value Hcls) as [Hn Hy].
    split; [exact Hn |].
    intros H. destruct (Hy H) as (self' & Hr & Hv & _).
    exists self'. split; assumption.
  - intros self params m sm value Hcls.
    destruct (set_sync_mode_spec self params m sm value Hcls) as [Hn Hy].
    split; [exact Hn |].
    intros H. destruct (Hy H) as (self' & Hr & Hv & _).
    exists self'. split; assumption.
  - intros. apply BasePolicy_init_spec.
  - intros. apply TTLPolicy_init_spec.
  - intros. apply HAPolicy_init_spec.
Qed.

(* ------------------------------------------------------------------ *)
(** ** The argument vector of [set] *)

(** On the success path every class runs the [set_policy] vector once,
    logs the output and leaves the status alone; [BasePolicy.set] returns
    the output, the two overriding methods return [None]. *)
Lemma set_success_path (self : policy) (out : bytes) :
  outcome (check self) = Return true ->
  check_output (set_policy_argv self) = Return out ->
  code_points_of_bytes out <> None ->
  check_output_calls (trace (set self))
  = [["rabbitmqctl"; "set_policy"; "-p"; vhost self; name self;
      pattern self; definition self; "--apply-to"; apply_to self;
      "--priority"; priority self]]
  /\ status_set_calls (trace (set self)) = []
  /\ error_logs (trace (set self)) = []
  /\ outcome (BasePolicy_set self) = Return (Some (string_of_list_byte out))
  /\ outcome (set self)
     = match cls self with
       | BasePolicy _ => Return (Some (string_of_list_byte out))
       | _ => Return None
       end.
Proof.
  intros Hc Hout Hdec.
  destruct (check_runs self) as (t & b & Ht & Hco & Hst & Herr).
  rewrite Ht in Hc. simpl in Hc. inversion Hc; subst b.
  assert (Hd : decode_utf8 out = Return (string_of_list_byte out)).
  { unfold decode_utf8. destruct (code_points_of_bytes out);
      [reflexivity | contradiction]. }
  pose proof (set_succeeds self t Ht out _ Hout Hd) as Hrun.
  rewrite set_trace, set_outcome, Hrun.
  unfold trace, outcome; simpl fst; simpl snd.
  rewrite check_output_calls_app, status_set_calls_app, error_logs_app.
  rewrite Hco, Hst, Herr.
  repeat split; reflexivity.
Qed.

(** C10.  A [BasePolicy] built with [pattern] and [definition] left at
    [None] stores the four-character text [None] in both attributes, not an
    absent value; its [set] runs the command once, and the argument vector
    carries that text in the pattern and definition positions. *)
Theorem C10_default_pattern_and_definition
        (v n a pr ty : pyval) (p : policy) :
  BasePolicy_init v n PyNone PyNone a pr ty = Return p ->
  pattern p = "None"
  /\ definition p = "None"
  /\ String.length (pattern p) = 4%nat
  /\ String.length (definition p) = 4%nat
  /\ check_output_calls (trace (set p))
     = [["rabbitmqctl"; "set_policy"; "-p"; vhost p; name p;
         "None"; "None"; "--apply-to"; apply_to p;
         "--priority"; priority p]].
Proof.
  intros H. apply BasePolicy_init_fields in H.
  destruct H as (_ & _ & Hpat & Hdef & _ & _ & _ & Hcls).
  assert (Hc : outcome (check p) = Return true).
  { rewrite other_check_run; [reflexivity |].
    intros params m sm. rewrite Hcls. discriminate. }
  rewrite (set_executes p Hc). unfold set_policy_argv.
  rewrite Hpat, Hdef. simpl.
  repeat split; reflexivity.
Qed.


(* ------------------------------------------------------------------ *)
(** ** Every run of [set] and of [clear] *)

Lemma log_calls_app (t1 t2 : list event) :
  log_calls (t1 ++ t2) = (log_calls t1 ++ log_calls t2)%list.
Proof. apply flat_map_app. Qed.

Lemma cmp_pkgrevno_calls_app (t1 t2 : list event) :
  cmp_pkgrevno_calls (t1 ++ t2)
  = (cmp_pkgrevno_calls t1 ++ cmp_pkgrevno_calls t2)%list.
Proof. apply flat_map_app. Qed.

Lemma BasePolicy_set_runs (self : policy) (t : list event) (b : bool) :
  check self = (t, Return b) ->
  set_run self t (BasePolicy_set self).
Proof.
  intros Ht. destruct b.
  - destruct (check_output (set_policy_argv self)) as [out | e] eqn:Hout.
    + destruct (code_points_of_bytes out) as [cps |] eqn:Hdec.
      * rewrite (set_succeeds self t Ht out (string_of_list_byte out) Hout);
          [| unfold decode_utf8; rewrite Hdec; reflexivity].
        apply run_succeeded; [exact Ht |].
        rewrite Hout. constructor. rewrite Hdec. discriminate.
      * rewrite (set_absorbs_undecodable self t Ht out Hout Hdec).
        apply (run_absorbed self t
                 (mkExn UnicodeDecodeError (decode_error_text out)));
          [exact Ht | rewrite Hout; constructor; exact Hdec | reflexivity].
    + destruct (caught_by_set e) eqn:Hc.
      * rewrite (set_absorbs self t Ht e Hout Hc).
        apply run_absorbed; [exact Ht | rewrite Hout; constructor | exact Hc].
      * rewrite (set_propagates self t Ht e Hout Hc).
        apply run_propagated; assumption.
  - rewrite (set_skipped self t Ht). apply run_skipped. exact Ht.
Qed.

(** What [check] leaves in the trace: at most the version question and
    the two notices; nothing for a class that does not override it. *)
Lemma check_runs_quietly (self : policy) :
  exists t b,
    check self = (t, Return b)
    /\ check_output_calls t = []
    /\ status_set_calls t = []
    /\ error_logs t = []
    /\ cmp_pkgrevno_calls t
       = match cls self with
         | HAPolicy _ _ _ => [("rabbitmq-server", "3.0.0")]
         | _ => []
         end
    /\ (class_of self <> HAPolicy_class -> t = [] /\ b = true).
Proof.
  unfold check, HAPolicy_check, BasePolicy_check, class_of.
  destruct (cls self); run_M.
  - exists [], true. repeat split; reflexivity.
  - exists [], true. repeat split; reflexivity.
  - destruct (cmp_pkgrevno "rabbitmq-server" "3.0.0" <? 0)%Z;
      eexists; eexists; do 5 (split; [reflexivity |]);
      intros H; exfalso; apply H; reflexivity.
Qed.

Lemma set_reports_failure_of_run (self : policy) (e : exn) :
  outcome (check self) = Return true ->
  command_fails (check_output (set_policy_argv self)) e ->
  caught_by_set e = true ->
  set_reports_failure self e.
Proof.
  intros Hc Hfail Hcaught.
  destruct (check_runs self) as (t & b & Ht & _ & Hst & Herr).
  rewrite Ht in Hc. simpl in Hc. inversion Hc; subst b.
  assert (Hrun : BasePolicy_set self
                 = ((t ++ [Log (setting_msg self) DEBUG;
                           CheckOutput (set_policy_argv self);
                           Log (exn_str e ++ ", " ++ create_failed_msg self)
                               ERROR;
                           StatusSet "blocked" (create_failed_msg self)])%list,
                    Return None)).
  { inversion Hfail as [e' He' | out Hdec Hout]; subst.
    - apply set_absorbs; auto.
    - apply set_absorbs_undecodable; auto. }
  unfold set_reports_failure.
  rewrite set_trace, set_outcome, Hrun.
  unfold trace, outcome; simpl fst; simpl snd.
  rewrite error_logs_app, status_set_calls_app, Hst, Herr.
  split; [destruct (cls self); reflexivity |].
  split; reflexivity.
Qed.

(** X1.  [set] absorbs every [ValueError], not only the failure of the
    command: one that [check_output] raises, and the
    [UnicodeDecodeError] of an output that is not UTF-8. *)
Theorem set_absorbs_value_errors (self : policy) :
  outcome (check self) = Return true ->
  (forall e,
      check_output (set_policy_argv self) = Raise e ->
      is_ValueError e = true ->
      set_reports_failure self e)
  /\ (forall out,
         check_output (set_policy_argv self) = Return out ->
         code_points_of_bytes out = None ->
         set_reports_failure
           self (mkExn UnicodeDecodeError (decode_error_text out))).
Proof.
  intros Hc. split.
  - intros e Hout He. apply set_reports_failure_of_run; [exact Hc | |].
    + rewrite Hout. constructor.
    + unfold caught_by_set. rewrite He. apply orb_true_r.
  - intros out Hout Hdec. apply set_reports_failure_of_run; [exact Hc | |].
    + rewrite Hout. constructor. exact Hdec.
    + reflexivity.
Qed.

(** X2.  An exception of [check_output] that is neither a
    [CalledProcessError] nor a [ValueError] leaves [set]: the command was
    tried once, nothing is logged at error level and the status is not
    touched. *)
Theorem set_propagates_other_exceptions (self : policy) (e : exn) :
  outcome (check self) = Return true ->
  check_output (set_policy_argv self) = Raise e ->
  is_CalledProcessError e = false ->
  is_ValueError e = false ->
  raises_unreported (set self) e
  /\ check_output_calls (trace (set self)) = [set_policy_argv self].
Proof.
  intros Hc Hout Hcpe Hve.
  destruct (check_runs self) as (t & b & Ht & Hco & Hst & Herr).
  rewrite Ht in Hc. simpl in Hc. inversion Hc; subst b.
  assert (Hcaught : caught_by_set e = false)
    by (unfold caught_by_set; rewrite Hcpe, Hve; reflexivity).
  pose proof (set_propagates self t Ht e Hout Hcaught) as Hrun.
  unfold raises_unreported.
  rewrite set_trace, set_outcome, Hrun.
  unfold trace, outcome; simpl fst; simpl snd.
  rewrite error_logs_app, status_set_calls_app, check_output_calls_app.
  rewrite Hco, Hst, Herr.
  repeat split; try reflexivity.
  destruct (cls self); reflexivity.
Qed.

Lemma clear_propagates (self : policy) (e : exn) :
  check_output (clear_policy_argv self) = Raise e ->
  is_CalledProcessError e = false ->
  clear self
  = ([Log (clearing_msg self) DEBUG; CheckOutput (clear_policy_argv self)],
     Raise e).
Proof.
  intros Hout He. unfold clear. run_M. rewrite Hout, He. reflexivity.
Qed.

Lemma clear_undecodable (self : policy) (out : bytes) :
  check_output (clear_policy_argv self) = Return out ->
  code_points_of_bytes out = None ->
  clear self
  = ([Log (clearing_msg self) DEBUG; CheckOutput (clear_policy_argv self)],
     Raise (mkExn UnicodeDecodeError (decode_error_text out))).
Proof.
  intros Hout Hdec. unfold clear. run_M. rewrite Hout.
  unfold decode_utf8. rewrite Hdec. reflexivity.
Qed.

(** X3.  [clear] absorbs [CalledProcessError] only.  Any other exception of
    [check_output], a [ValueError] included, leaves it, and so does the
    [UnicodeDecodeError] of an output that is not UTF-8, which [set]
    would absorb; nothing is reported then. *)
Theorem clear_propagates_all_but_command_failure (self : policy) :
  (forall e,
      check_output (clear_policy_argv self) = Raise e ->
      is_CalledProcessError e = false ->
      raises_unreported (clear self) e)
  /\ (forall out,
         check_output (clear_policy_argv self) = Return out ->
         code_points_of_bytes out = None ->
         raises_unreported
           (clear self) (mkExn UnicodeDecodeError (decode_error_text out))).
Proof.
  split.
  - intros e Hout He. rewrite (clear_propagates self e Hout He).
    repeat split; reflexivity.
  - intros out Hout Hdec. rewrite (clear_undecodable self out Hout Hdec).
    repeat split; reflexivity.
Qed.

(* ------------------------------------------------------------------ *)
(** ** What a caller can read from a run *)

Ltac read_trace :=
  unfold trace, outcome; simpl fst; simpl snd;
  rewrite ?check_output_calls_app, ?status_set_calls_app, ?error_logs_app,
    ?log_calls_app, ?cmp_pkgrevno_calls_app.

(** X4.  On a [BasePolicy], whose [check] is always true, the value of [set]
    tells success from failure: it is [None] exactly when the blocked
    status was reported, and when it is a text, that text was logged at
    info level after the debug entry and the status was left alone. *)
Theorem base_set_none_iff_reported (self : policy) (d : string) :
  cls self = BasePolicy d ->
  (outcome (set self) = Return None
   <-> status_set_calls (trace (set self))
       = [("blocked", "RabbitMQ failed to create policy " ++ name self)])
  /\ (forall text,
         outcome (set self) = Return (Some text) ->
         log_calls (trace (set self))
         = [(setting_msg self, DEBUG); (text, INFO)]
         /\ status_set_calls (trace (set self)) = []).
Proof.
  intros Hcls.
  assert (Hck : check self = ([], Return true)).
  { apply other_check_run. intros p m sm. rewrite Hcls. discriminate. }
  pose proof (BasePolicy_set_runs self [] true Hck) as Hrun.
  unfold set. rewrite Hcls.
  inversion Hrun as [Hf | text Ht Hp Heq | e Ht Hfl Hc Heq | e Ht Hr Hc Heq].
  - rewrite Hck in Hf. discriminate.
  - read_trace. split.
    + split; discriminate.
    + intros text' H. inversion H; subst. split; reflexivity.
  - read_trace. split.
    + split; reflexivity.
    + intros text' H. discriminate.
  - read_trace. split.
    + split; discriminate.
    + intros text' H. discriminate.
Qed.

(** X5.  Neither [set] nor [clear] tries again or reports twice: in every run
    the command is called at most once ([clear]: once), on the vector of
    the method; the status is reported at most once, as [blocked] with
    the message of the method; and there are as many error entries as
    status reports. *)
Theorem set_and_clear_never_retry (self : policy) :
  (check_output_calls (trace (set self)) = []
   \/ check_output_calls (trace (set self)) = [set_policy_argv self])
  /\ (status_set_calls (trace (set self)) = []
      \/ status_set_calls (trace (set self))
         = [("blocked", "RabbitMQ failed to create policy " ++ name self)])
  /\ List.length (error_logs (trace (set self)))
     = List.length (status_set_calls (trace (set self)))
  /\ check_output_calls (trace (clear self)) = [clear_policy_argv self]
  /\ (status_set_calls (trace (clear self)) = []
      \/ status_set_calls (trace (clear self))
         = [("blocked", "RabbitMQ failed to clear policy " ++ name self)])
  /\ List.length (error_logs (trace (clear self)))
     = List.length (status_set_calls (trace (clear self))).
Proof.
  assert (Hset :
    (check_output_calls (trace (set self)) = []
     \/ check_output_calls (trace (set self)) = [set_policy_argv self])
    /\ (status_set_calls (trace (set self)) = []
        \/ status_set_calls (trace (set self))
           = [("blocked", "RabbitMQ failed to create policy " ++ name self)])
    /\ List.length (error_logs (trace (set self)))
       = List.length (status_set_calls (trace (set self)))).
  { rewrite set_trace.
    destruct (check_runs self) as (t & b & Ht & Hco & Hst & Herr).
    pose proof (BasePolicy_set_runs self t b Ht) as Hrun.
    inversion Hrun; read_trace; rewrite Hco, Hst, Herr;
      repeat split; auto. }
  assert (Hclear :
    (status_set_calls (trace (clear self)) = []
     \/ status_set_calls (trace (clear self))
        = [("blocked", "RabbitMQ failed to clear policy " ++ name self)])
    /\ List.length (error_logs (trace (clear self)))
       = List.length (status_set_calls (trace (clear self)))).
  { destruct (check_output (clear_policy_argv self)) as [out | e] eqn:Hout.
    - destruct (code_points_of_bytes out) as [cps |] eqn:Hdec.
      + rewrite (clear_succeeds self out Hout);
          [| rewrite Hdec; discriminate].
        split; [left |]; reflexivity.
      + rewrite (clear_undecodable self out Hout Hdec).
        split; [left |]; reflexivity.
    - destruct (is_CalledProcessError e) eqn:He.
      + rewrite (clear_absorbs self e Hout He).
        split; [right |]; reflexivity.
      + rewrite (clear_propagates self e Hout He).
        split; [left |]; reflexivity. }
  destruct Hset as (H1 & H2 & H3). destruct Hclear as (H4 & H5).
  repeat split; auto. apply clear_executes.
Qed.

Lemma clear_trace_has_no_version_question (self : policy) :
  cmp_pkgrevno_calls (trace (clear self)) = [].
Proof.
  destruct (check_output (clear_policy_argv self)) as [out | e] eqn:Hout.
  - destruct (code_points_of_bytes out) as [cps |] eqn:Hdec.
    + rewrite (clear_succeeds self out Hout); [| rewrite Hdec; discriminate].
      reflexivity.
    + rewrite (clear_undecodable self out Hout Hdec). reflexivity.
  - destruct (is_CalledProcessError e) eqn:He.
    + rewrite (clear_absorbs self e Hout He). reflexivity.
    + rewrite (clear_propagates self e Hout He). reflexivity.
Qed.

(** X6.  Only [HAPolicy.set] is gated by the version.  [set] asks
    [cmp_pkgrevno] once, about rabbitmq-server 3.0.0, on an [HAPolicy]
    and never on another class, whose [set] always runs the command;
    [clear] never asks and always runs its command, on an [HAPolicy]
    too, however old the broker is. *)
Theorem only_ha_set_is_version_gated (self : policy) :
  cmp_pkgrevno_calls (trace (set self))
  = match cls self with
    | HAPolicy _ _ _ => [("rabbitmq-server", "3.0.0")]
    | _ => []
    end
  /\ (class_of self <> HAPolicy_class ->
      check_output_calls (trace (set self)) = [set_policy_argv self])
  /\ cmp_pkgrevno_calls (trace (clear self)) = []
  /\ check_output_calls (trace (clear self)) = [clear_policy_argv self].
Proof.
  split; [| split; [| split]].
  - rewrite set_trace.
    destruct (check_runs_quietly self) as (t & b & Ht & _ & _ & _ & Hcmp & _).
    pose proof (BasePolicy_set_runs self t b Ht) as Hrun.
    inversion Hrun; read_trace; rewrite Hcmp;
      destruct (cls self); reflexivity.
  - intros Hne. apply set_executes.
    destruct (check_runs_quietly self) as (t & b & Ht & _ & _ & _ & _ & Hq).
    destruct (Hq Hne) as [-> ->]. rewrite Ht. reflexivity.
  - apply clear_trace_has_no_version_question.
  - apply clear_executes.
Qed.

(** X7.  The log of a run.  When rabbitmq-server is older than 3.0.0,
    [HAPolicy.set] does nothing but ask the version and log the warning
    and the pointer to the documentation.  On the other classes [set]
    logs two entries when it returns and one when an exception leaves
    it, and so does [clear] on every class. *)
Theorem log_entries_of_a_run (self : policy) :
  (forall params m sm,
      cls self = HAPolicy params m sm ->
      (cmp_pkgrevno "rabbitmq-server" "3.0.0" < 0)%Z ->
      trace (set self)
      = [CmpPkgrevno "rabbitmq-server" "3.0.0";
         Log "Mirroring queues cannot be enabled, only supported in rabbitmq-server >= 3.0"
             WARNING;
         Log "More information at http://www.rabbitmq.com/blog/2012/11/19/breaking-things-with-rabbitmq-3-0"
             INFO])
  /\ (class_of self <> HAPolicy_class ->
      List.length (log_calls (trace (set self)))
      = match outcome (set self) with Return _ => 2%nat | Raise _ => 1%nat end)
  /\ List.length (log_calls (trace (clear self)))
     = match outcome (clear self) with Return _ => 2%nat | Raise _ => 1%nat end.
Proof.
  split; [| split].
  - intros params m sm Hcls Hcmp.
    pose proof (HAPolicy_check_run self params m sm Hcls) as Hck.
    apply Z.ltb_lt in Hcmp. rewrite Hcmp in Hck.
    rewrite set_trace, (set_skipped self _ Hck). reflexivity.
  - intros Hne.
    destruct (check_runs_quietly self) as (t & b & Ht & _ & _ & _ & _ & Hq).
    destruct (Hq Hne) as [-> ->].
    pose proof (BasePolicy_set_runs self [] true Ht) as Hrun.
    rewrite set_trace, set_outcome.
    inversion Hrun as [Hf | text Hc Hp Heq | e Hc Hfl Hcg Heq
                       | e Hc Hr Hcg Heq].
    + rewrite Ht in Hf. discriminate.
    + read_trace. destruct (cls self); reflexivity.
    + read_trace. destruct (cls self); reflexivity.
    + read_trace. destruct (cls self); reflexivity.
  - destruct (check_output (clear_policy_argv self)) as [out | e] eqn:Hout.
    + destruct (code_points_of_bytes out) as [cps |] eqn:Hdec.
      * rewrite (clear_succeeds self out Hout); [| rewrite Hdec; discriminate].
        reflexivity.
      * rewrite (clear_undecodable self out Hout Hdec). reflexivity.
    + destruct (is_CalledProcessError e) eqn:He.
      * rewrite (clear_absorbs self e Hout He). reflexivity.
      * rewrite (clear_propagates self e Hout He). reflexivity.
Qed.

(* ------------------------------------------------------------------ *)
(** ** Objects under assignment *)

Lemma set_apply_to_inv (self self' : policy) (value : pyval) :
  set_apply_to self value = Return self' ->
  in_members ApplyToTypes value = true
  /\ self' = mkPolicy (vhost self) (name self) (pattern self) (py_str value)
                      (priority self) (type self) (cls self).
Proof.
  unfold set_apply_to, validated.
  destruct (in_members ApplyToTypes value); simpl; [| discriminate].
  intros H; inversion H. split; reflexivity.
Qed.

Lemma set_mode_inv (self self' : policy) (value : pyval) :
  set_mode self value = Return self' ->
  match cls self with
  | HAPolicy p m sm =>
      in_members ModeTypes value = true
      /\ self' = with_cls self (HAPolicy p (py_str value) sm)
  | _ => self' = self
  end.
Proof.
  unfold set_mode, validated.
  destruct (cls self) as [d | n b | p m sm];
    try (intros H; inversion H; reflexivity).
  destruct (in_members ModeTypes value); simpl; [| discriminate].
  intros H; inversion H. split; reflexivity.
Qed.

Lemma set_sync_mode_inv (self self' : policy) (value : pyval) :
  set_sync_mode self value = Return self' ->
  match cls self with
  | HAPolicy p m sm =>
      in_members SyncModeTypes value = true
      /\ self' = with_cls self (HAPolicy p m (py_str value))
  | _ => self' = self
  end.
Proof.
  unfold set_sync_mode, validated.
  destruct (cls self) as [d | n b | p m sm];
    try (intros H; inversion H; reflexivity).
  destruct (in_members SyncModeTypes value); simpl; [| discriminate].
  intros H; inversion H. split; reflexivity.
Qed.

(** X8.  Assigning an enumerated property never changes what identifies the
    policy: the object keeps its class, vhost, name, pattern, priority
    and type, stays equal to what it was, keeps its hash and its
    [clear] command. *)
Theorem assignment_keeps_identity (self self' : policy) :
  assigned self self' ->
  class_of self' = class_of self
  /\ _key self' = _key self
  /\ pattern self' = pattern self
  /\ priority self' = priority self
  /\ type self' = type self
  /\ policy_eq self self' = true
  /\ __hash__ self' = __hash__ self
  /\ clear_policy_argv self' = clear_policy_argv self.
Proof.
  intros H.
  assert (Hsame : class_of self' = class_of self
                  /\ vhost self' = vhost self /\ name self' = name self
                  /\ pattern self' = pattern self
                  /\ priority self' = priority self
                  /\ type self' = type self).
  { destruct H as [value H | value H | value H].
    - apply set_apply_to_inv in H. destruct H as [_ ->].
      repeat split; reflexivity.
    - apply set_mode_inv in H. unfold class_of.
      destruct (cls self) as [d | n b | p m sm] eqn:E;
        [subst; rewrite ?E; repeat split; reflexivity ..|].
      destruct H as [_ ->]. simpl. repeat split; reflexivity.
    - apply set_sync_mode_inv in H. unfold class_of.
      destruct (cls self) as [d | n b | p m sm] eqn:E;
        [subst; rewrite ?E; repeat split; reflexivity ..|].
      destruct H as [_ ->]. simpl. repeat split; reflexivity. }
  destruct Hsame as (Hc & Hv & Hn & Hp & Hpr & Hty).
  assert (Hk : _key self' = _key self)
    by (unfold _key; rewrite Hv, Hn; reflexivity).
  repeat split; auto.
  - unfold policy_eq, __eq__. apply key_eqb_eq. symmetry. exact Hk.
  - unfold __hash__. rewrite Hk. reflexivity.
  - unfold clear_policy_argv. rewrite Hv, Hn. reflexivity.
Qed.

Lemma validated_gives_member (members : list string) (ename : string)
      (value : pyval) (s : string) :
  validated members ename value = Return s ->
  mem_str s members = true /\ value = PyStr s.
Proof.
  unfold validated. destruct (in_members members value) eqn:E;
    [| discriminate].
  intros H; inversion H; subst.
  destruct (in_members_PyStr _ _ E) as [Hv Hm]. split; [exact Hm | exact Hv].
Qed.

Lemma BasePolicy_init_valid (v n pat def a pr ty : pyval) (p : policy) :
  BasePolicy_init v n pat def a pr ty = Return p ->
  enumerations_valid p = true.
Proof.
  unfold BasePolicy_init.
  destruct (validated ApplyToTypes "ApplyToTypes" (PyStr (py_str a)))
    as [s | e] eqn:E; simpl; [| discriminate].
  apply validated_gives_member in E. destruct E as [Hm _].
  intros H; inversion H; subst. unfold enumerations_valid, apply_to.
  cbn [_apply_to cls].
  rewrite Hm. reflexivity.
Qed.

Lemma TTLPolicy_init_valid (v n pat a pr ty ttl mt : pyval) (p : policy) :
  TTLPolicy_init v n pat a pr ty ttl mt = Return p ->
  enumerations_valid p = true.
Proof.
  unfold TTLPolicy_init.
  destruct (validated ApplyToTypes "ApplyToTypes" (PyStr (py_str a)))
    as [s | e] eqn:E; simpl; [| discriminate].
  apply validated_gives_member in E. destruct E as [Hm _].
  destruct (py_int ttl) as [k | e]; simpl; [| discriminate].
  intros H; inversion H; subst. unfold enumerations_valid, apply_to.
  cbn [_apply_to cls].
  rewrite Hm. reflexivity.
Qed.

Lemma HAPolicy_init_valid (v n pat a pr params ty mo sy : pyval)
      (p : policy) :
  HAPolicy_init v n pat a pr params ty mo sy = Return p ->
  enumerations_valid p = true.
Proof.
  unfold HAPolicy_init.
  destruct (validated ApplyToTypes "ApplyToTypes" (PyStr (py_str a)))
    as [s | e] eqn:Ea; simpl; [| discriminate].
  destruct (validated ModeTypes "ModeTypes" (PyStr (py_str mo)))
    as [m | e] eqn:Em; simpl; [| discriminate].
  destruct (validated SyncModeTypes "SyncModeTypes" (PyStr (py_str sy)))
    as [sm | e] eqn:Es; simpl; [| discriminate].
  apply validated_gives_member in Ea, Em, Es.
  destruct Ea as [Ha _], Em as [Hm _], Es as [Hs _].
  intros H; inversion H; subst. unfold enumerations_valid, apply_to.
  cbn [_apply_to cls].
  rewrite Ha, Hm, Hs. reflexivity.
Qed.

Lemma assigned_valid (self self' : policy) :
  enumerations_valid self = true ->
  assigned self self' ->
  enumerations_valid self' = true.
Proof.
  unfold enumerations_valid, apply_to. intros Hv H.
  apply andb_true_iff in Hv. destruct Hv as [Ha Hc].
  destruct H as [value H | value H | value H].
  - apply set_apply_to_inv in H. destruct H as [Hm ->].
    cbn [_apply_to cls].
    destruct (in_members_PyStr _ _ Hm) as [_ Hm']. rewrite Hm'. exact Hc.
  - apply set_mode_inv in H.
    destruct (cls self) as [d | n b | p m sm] eqn:E.
    + subst. rewrite E, Ha. reflexivity.
    + subst. rewrite E, Ha. reflexivity.
    + destruct H as [Hm ->]. unfold with_cls. cbn [_apply_to cls].
      destruct (in_members_PyStr _ _ Hm) as [_ Hm'].
      apply andb_true_iff in Hc. destruct Hc as [_ Hs].
      rewrite Ha, Hm', Hs. reflexivity.
  - apply set_sync_mode_inv in H.
    destruct (cls self) as [d | n b | p m sm] eqn:E.
    + subst. rewrite E, Ha. reflexivity.
    + subst. rewrite E, Ha. reflexivity.
    + destruct H as [Hm ->]. unfold with_cls. cbn [_apply_to cls].
      destruct (in_members_PyStr _ _ Hm) as [_ Hm'].
      apply andb_true_iff in Hc. destruct Hc as [Hmo _].
      rewrite Ha, Hmo, Hm'. reflexivity.
Qed.

(** X9.  An object built by a constructor and then changed by any number of
    assignments always holds member names in its enumerated attributes;
    so the value after [--apply-to] in its [set] command is one of
    [queues], [exchanges] and [all]. *)
Theorem enumerations_stay_valid (p : policy) :
  reachable p ->
  enumerations_valid p = true
  /\ In (apply_to p) ["queues"; "exchanges"; "all"]
  /\ nth_error (set_policy_argv p) 8 = Some (apply_to p)
  /\ (forall params m sm,
         cls p = HAPolicy params m sm ->
         In m ["all"; "exactly"; "nodes"] /\ In sm ["automatic"; "manual"]).
Proof.
  intros Hr.
  assert (Hv : enumerations_valid p = true).
  { induction Hr as [p Hc | p p' Hr IH Ha].
    - destruct Hc as [? ? ? ? ? ? ? H | ? ? ? ? ? ? ? ? H
                      | ? ? ? ? ? ? ? ? ? H].
      + eapply BasePolicy_init_valid; eassumption.
      + eapply TTLPolicy_init_valid; eassumption.
      + eapply HAPolicy_init_valid; eassumption.
    - eapply assigned_valid; eassumption. }
  assert (Hmem : forall s l, mem_str s l = true -> In s l).
  { intros s l. induction l as [| x l IH]; simpl; [discriminate |].
    intros H. apply orb_true_iff in H. destruct H as [H | H].
    - left. apply String.eqb_eq in H. auto.
    - right. auto. }
  split; [exact Hv |].
  unfold enumerations_valid in Hv. apply andb_true_iff in Hv.
  destruct Hv as [Ha Hc].
  split; [apply (Hmem _ ApplyToTypes Ha) |].
  split; [reflexivity |].
  intros params m sm Hcls. rewrite Hcls in Hc.
  apply andb_true_iff in Hc. destruct Hc as [Hm Hs].
  split; [apply (Hmem _ ModeTypes Hm) | apply (Hmem _ SyncModeTypes Hs)].
Qed.

(* ------------------------------------------------------------------ *)
(** ** The constructors: which error, which coercion *)

Lemma validated_str (members : list string) (ename : string) (a : pyval) :
  forallb head_is_lower members = true ->
  validated members ename (PyStr (py_str a))
  = if in_members members a then Return (py_str a)
    else Raise (not_in a ename).
Proof.
  intros Hl. unfold validated. rewrite (member_after_str _ a Hl).
  reflexivity.
Qed.

(** X10.  The constructors validate in the order of their assignments and stop
    at the first failure.  [HAPolicy] reports [apply_to] before [mode]
    and [mode] before [sync_mode], naming the offending value and the
    enumeration; [TTLPolicy] reports [apply_to] before it looks at
    [ttl], so a bad [ttl] shows only once [apply_to] is valid. *)
Theorem constructors_report_first_invalid
        (v n pat a pr params ty mo sy ttl mt : pyval) :
  (in_members ApplyToTypes a = false ->
   HAPolicy_init v n pat a pr params ty mo sy
   = Raise (not_in a "ApplyToTypes")
   /\ TTLPolicy_init v n pat a pr ty ttl mt
      = Raise (not_in a "ApplyToTypes"))
  /\ (in_members ApplyToTypes a = true ->
      in_members ModeTypes mo = false ->
      HAPolicy_init v n pat a pr params ty mo sy
      = Raise (not_in mo "ModeTypes"))
  /\ (in_members ApplyToTypes a = true ->
      in_members ModeTypes mo = true ->
      in_members SyncModeTypes sy = false ->
      HAPolicy_init v n pat a pr params ty mo sy
      = Raise (not_in sy "SyncModeTypes"))
  /\ (in_members ApplyToTypes a = true ->
      forall e, py_int ttl = Raise e ->
                TTLPolicy_init v n pat a pr ty ttl mt = Raise e).
Proof.
  destruct enumerations_lower as (Ha & Hm & Hs).
  unfold HAPolicy_init, TTLPolicy_init.
  rewrite (validated_str _ "ApplyToTypes" a Ha),
    (validated_str _ "ModeTypes" mo Hm),
    (validated_str _ "SyncModeTypes" sy Hs).
  split; [| split; [| split]].
  - intros ->. split; reflexivity.
  - intros -> ->. reflexivity.
  - intros -> -> ->. reflexivity.
  - intros -> e ->. reflexivity.
Qed.

(** X11.  [TTLPolicy] coerces [message_ttl] with [bool]: every non-empty
    [str], the texts [False] and [0] included, and every non-zero [int]
    select the [message-ttl] key; [None], the empty [str] and [0] select
    [experies]. *)
Theorem message_ttl_is_truthiness
        (v n pat a pr ty ttl mt : pyval) (p : policy) :
  TTLPolicy_init v n pat a pr ty ttl mt = Return p ->
  exists X,
    py_int ttl = Return X
    /\ cls p = TTLPolicy X (py_bool mt)
    /\ ((exists s, mt = PyStr s /\ s <> EmptyString)
        \/ (exists z, mt = PyInt z /\ z <> 0%Z)
        \/ mt = PyBool true ->
        definition p
        = "{" ++ dq ++ "message-ttl" ++ dq ++ ": " ++ string_of_Z X ++ "}")
    /\ (mt = PyNone \/ mt = PyStr EmptyString \/ mt = PyInt 0
        \/ mt = PyBool false ->
        definition p
        = "{" ++ dq ++ "experies" ++ dq ++ ": " ++ string_of_Z X ++ "}").
Proof.
  unfold TTLPolicy_init.
  destruct (validated ApplyToTypes "ApplyToTypes" (PyStr (py_str a)))
    as [s | e]; simpl; [| discriminate].
  destruct (py_int ttl) as [X | e]; simpl; [| discriminate].
  intros H; inversion H; subst. exists X.
  split; [reflexivity |]. split; [reflexivity |].
  unfold definition; cbn [cls]. split.
  - intros Ht.
    assert (Hb : py_bool mt = true).
    { destruct Ht as [(s' & -> & Hs) | [(z & -> & Hz) | ->]]; simpl.
      - destruct (String.eqb_spec s' EmptyString); [contradiction |].
        reflexivity.
      - destruct (Z.eqb_spec z 0); [contradiction | reflexivity].
      - reflexivity. }
    rewrite Hb. reflexivity.
  - intros Hf.
    assert (Hb : py_bool mt = false)
      by (destruct Hf as [-> | [-> | [-> | ->]]]; reflexivity).
    rewrite Hb. reflexivity.
Qed.

(* ------------------------------------------------------------------ *)
(** ** Equality, printing and the registry *)

(** X12.  [==] is an equivalence on policies, so that they can be collected in
    a [set]: it is reflexive, symmetric and transitive, and equal
    policies have equal hashes. *)
Theorem policy_eq_equivalence (p q r : policy) :
  policy_eq p p = true
  /\ policy_eq p q = policy_eq q p
  /\ (policy_eq p q = true -> policy_eq q r = true -> policy_eq p r = true)
  /\ (policy_eq p q = true -> __hash__ p = __hash__ q).
Proof.
  unfold policy_eq, __eq__, __hash__.
  split; [apply key_eqb_eq; reflexivity |].
  split.
  - destruct (key_eqb (_key p) (_key q)) eqn:E1;
      destruct (key_eqb (_key q) (_key p)) eqn:E2; try reflexivity.
    + apply key_eqb_eq in E1. rewrite E1 in E2.
      assert (key_eqb (_key q) (_key q) = true)
        by (apply key_eqb_eq; reflexivity).
      congruence.
    + apply key_eqb_eq in E2. rewrite E2 in E1.
      assert (key_eqb (_key p) (_key p) = true)
        by (apply key_eqb_eq; reflexivity).
      congruence.
  - split.
    + intros H1 H2. apply key_eqb_eq in H1, H2. apply key_eqb_eq.
      congruence.
    + intros H. apply key_eqb_eq in H. rewrite H. reflexivity.
Qed.

(** X13.  [__repr__] shows the class and the key and nothing else: two
    policies of one class that are equal print alike, whatever their
    other attributes, and policies of different classes never print
    alike. *)
Theorem repr_shows_class_and_key (p q : policy) :
  (class_of p = class_of q -> policy_eq p q = true ->
   __repr__ p = __repr__ q)
  /\ (__repr__ p = __repr__ q -> class_of p = class_of q).
Proof.
  unfold __repr__, class_name, class_of, policy_eq, __eq__, _key.
  split.
  - intros Hc He. apply key_eqb_eq in He. inversion He as [[Hv Hn]].
    rewrite Hv, Hn.
    destruct (cls p), (cls q); try discriminate; reflexivity.
  - destruct (cls p), (cls q); simpl; intros H;
      try reflexivity; discriminate.
Qed.

(** X14.  The registry agrees with the constructors: an object built with the
    default [type] of its class is found under that tag, and the tags
    are closed: any other tag is a [KeyError]. *)
Theorem registry_matches_constructors :
  (forall v n pat def a pr p,
      BasePolicy_init v n pat def a pr (PyStr "generic") = Return p ->
      handlers_getitem POLICY_HANDLERS (type p) = Some (class_of p))
  /\ (forall v n pat a pr ttl mt p,
         TTLPolicy_init v n pat a pr (PyStr "ttl") ttl mt = Return p ->
         handlers_getitem POLICY_HANDLERS (type p) = Some (class_of p))
  /\ (forall v n pat a pr params mo sy p,
         HAPolicy_init v n pat a pr params (PyStr "ha") mo sy = Return p ->
         handlers_getitem POLICY_HANDLERS (type p) = Some (class_of p))
  /\ (forall tag,
         handlers_getitem POLICY_HANDLERS tag <> None
         <-> tag = "generic" \/ tag = "ha" \/ tag = "ttl").
Proof.
  split; [| split; [| split]].
  - intros v n pat def a pr p. unfold BasePolicy_init.
    destruct (validated _ _ _); simpl; [| discriminate].
    intros H; inversion H; reflexivity.
  - intros v n pat a pr ttl mt p. unfold TTLPolicy_init.
    destruct (validated _ _ _); simpl; [| discriminate].
    destruct (py_int ttl); simpl; [| discriminate].
    intros H; inversion H; reflexivity.
  - intros v n pat a pr params mo sy p. unfold HAPolicy_init.
    destruct (validated ApplyToTypes _ _); simpl; [| discriminate].
    destruct (validated ModeTypes _ _); simpl; [| discriminate].
    destruct (validated SyncModeTypes _ _); simpl; [| discriminate].
    intros H; inversion H; reflexivity.
  - intros tag. unfold POLICY_HANDLERS, handlers_getitem.
    destruct (String.eqb_spec tag "generic") as [-> | H1].
    { split; [auto | discriminate]. }
    destruct (String.eqb_spec tag "ha") as [-> | H2].
    { split; [auto | discriminate]. }
    destruct (String.eqb_spec tag "ttl") as [-> | H3].
    { split; [auto | discriminate]. }
    split; [intros H; contradiction | intros [H | [H | H]]; contradiction].
Qed.

(* ------------------------------------------------------------------ *)
(** ** The definitions as texts *)

Lemma string_of_Z_read_back (z : Z) : decimal_of_str (string_of_Z z) = Some z.
Proof.
  unfold decimal_of_str, string_of_Z.
  rewrite NilZero.isi.
  - rewrite DecimalZ.of_to. reflexivity.
  - destruct z as [| p | p]; simpl; try discriminate.
    intros H. inversion H as [H']. revert H'. apply DecimalPos.Unsigned.to_uint_nonnil.
  - destruct z as [| p | p]; simpl; try discriminate.
    intros H. inversion H as [H']. revert H'. apply DecimalPos.Unsigned.to_uint_nonnil.
Qed.

Lemma string_of_Z_inj (z1 z2 : Z) :
  string_of_Z z1 = string_of_Z z2 -> z1 = z2.
Proof.
  intros H. apply (f_equal decimal_of_str) in H.
  rewrite !string_of_Z_read_back in H. inversion H. reflexivity.
Qed.

Lemma length_append (s t : string) :
  String.length (s ++ t) = (String.length s + String.length t)%nat.
Proof. induction s as [| c s IH]; simpl; [reflexivity | rewrite IH; reflexivity]. Qed.

Lemma append_same_length_inj (s1 s2 t1 t2 : string) :
  String.length s1 = String.length s2 ->
  s1 ++ t1 = s2 ++ t2 -> s1 = s2 /\ t1 = t2.
Proof.
  revert s2. induction s1 as [| c s1 IH]; intros [| c2 s2]; simpl;
    try discriminate.
  - intros _ H. split; [reflexivity | exact H].
  - intros Hl H. inversion H; subst. inversion Hl as [Hl'].
    destruct (IH s2 Hl' H2) as [-> ->]. split; reflexivity.
Qed.

Lemma append_inj_l (s1 s2 t : string) : s1 ++ t = s2 ++ t -> s1 = s2.
Proof.
  intros H. apply (append_same_length_inj s1 s2 t t); [| exact H].
  apply (f_equal String.length) in H. rewrite !length_append in H. lia.
Qed.

(** X15.  The definition of a [TTLPolicy] determines its two attributes: two
    policies render the same JSON text only when they have the same
    [ttl] and the same [message_ttl]. *)
Theorem ttl_definition_injective (t1 t2 : Z) (b1 b2 : bool) :
  TTLPolicy_definition t1 b1 = TTLPolicy_definition t2 b2 ->
  t1 = t2 /\ b1 = b2.
Proof.
  assert (Hm : forall t, TTLPolicy_definition t true
                         = ("{" ++ dq ++ "message-ttl" ++ dq ++ ": ")
                             ++ (string_of_Z t ++ "}"))
    by reflexivity.
  assert (He : forall t, TTLPolicy_definition t false
                         = ("{" ++ dq ++ "experies" ++ dq ++ ": ")
                             ++ (string_of_Z t ++ "}"))
    by reflexivity.
  destruct b1, b2; rewrite ?Hm, ?He; intros H.
  - apply append_same_length_inj in H; [| reflexivity].
    destruct H as [_ H]. apply append_inj_l in H.
    split; [apply string_of_Z_inj; exact H | reflexivity].
  - simpl in H. inversion H.
  - simpl in H. inversion H.
  - apply append_same_length_inj in H; [| reflexivity].
    destruct H as [_ H]. apply append_inj_l in H.
    split; [apply string_of_Z_inj; exact H | reflexivity].
Qed.

Lemma mem_str_In (s : string) (l : list string) :
  mem_str s l = true -> In s l.
Proof.
  induction l as [| x l IH]; simpl; [discriminate |].
  intros H. apply orb_true_iff in H. destruct H as [H | H].
  - left. apply String.eqb_eq in H. auto.
  - right. auto.
Qed.

(** The text of an [HAPolicy] definition, split after the sync mode. *)
Lemma HAPolicy_definition_text (params : pyval) (m sm : string) :
  HAPolicy_definition params m sm
  = ("{" ++ dq ++ "ha-mode" ++ dq ++ ": " ++ json_string m ++ ", "
         ++ dq ++ "ha-sync-mode" ++ dq ++ ": " ++ json_string sm)
      ++ (if String.eqb m "all" then "}"
          else ", " ++ dq ++ "ha-params" ++ dq ++ ": "
                    ++ json_dumps_value params ++ "}").
Proof.
  unfold HAPolicy_definition, HAPolicy_definition_dict.
  assert (Hassoc : forall a b c : string, (a ++ b) ++ c = a ++ (b ++ c)).
  { intros a b c. induction a as [| x a IH]; simpl;
      [reflexivity | rewrite IH; reflexivity]. }
  destruct (String.eqb m "all"); unfold json_dumps, json_item; simpl;
    rewrite ?Hassoc; simpl; rewrite ?Hassoc; reflexivity.
Qed.

(** X16.  The definition of an [HAPolicy] whose enumerated attributes are
    valid determines its mode and its sync mode, whatever the params. *)
Theorem ha_definition_determines_modes
        (p1 p2 : pyval) (m1 m2 s1 s2 : string) :
  mem_str m1 ModeTypes = true -> mem_str m2 ModeTypes = true ->
  mem_str s1 SyncModeTypes = true -> mem_str s2 SyncModeTypes = true ->
  HAPolicy_definition p1 m1 s1 = HAPolicy_definition p2 m2 s2 ->
  m1 = m2 /\ s1 = s2.
Proof.
  intros Hm1 Hm2 Hs1 Hs2.
  apply mem_str_In in Hm1, Hm2, Hs1, Hs2.
  rewrite !HAPolicy_definition_text.
  generalize (json_dumps_value p1) (json_dumps_value p2). intros j1 j2.
  simpl in Hm1, Hm2, Hs1, Hs2.
  destruct Hm1 as [<- | [<- | [<- | []]]];
    destruct Hm2 as [<- | [<- | [<- | []]]];
    destruct Hs1 as [<- | [<- | []]];
    destruct Hs2 as [<- | [<- | []]];
    intros H; try (split; reflexivity);
    exfalso; vm_compute in H; congruence.
Qed.

Lemma printable_append (s t : string) :
  printable_ascii (s ++ t) = printable_ascii s && printable_ascii t.
Proof.
  induction s as [| c s IH]; simpl; [reflexivity |].
  rewrite IH, andb_assoc. reflexivity.
Qed.

Lemma printable_concat (sep : string) (l : list string) :
  printable_ascii sep = true ->
  forallb printable_ascii l = true ->
  printable_ascii (concat sep l) = true.
Proof.
  intros Hsep. induction l as [| x l IH]; simpl; [reflexivity |].
  intros H. apply andb_true_iff in H. destruct H as [Hx Hl].
  destruct l as [| y l']; [exact Hx |].
  rewrite !printable_append, Hx, Hsep. simpl. apply IH. exact Hl.
Qed.

Lemma printable_hex_digit (n : N) :
  printable_ascii (hex_digit (N.land n 15)) = true.
Proof.
  assert (H : (N.land n 15 < 16)%N).
  { change 15%N with (N.ones 4). rewrite N.land_ones.
    apply N.mod_lt. discriminate. }
  destruct (N.land n 15) as [| p]; [reflexivity |].
  do 4 (destruct p as [p | p |]; try reflexivity);
    exfalso; destruct p; discriminate H.
Qed.

Lemma printable_u_escape (n : N) : printable_ascii (u_escape n) = true.
Proof.
  unfold u_escape. rewrite !printable_append, !printable_hex_digit.
  reflexivity.
Qed.

Lemma printable_json_escape_char (c : N) :
  printable_ascii (json_escape_char c) = true.
Proof.
  unfold json_escape_char.
  repeat match goal with
         | |- context [if ?b then _ else _] =>
             destruct b eqn:?; [try reflexivity |]
         end.
  - simpl. rewrite N_ascii_embedding.
    + match goal with H : (_ && _)%bool = true |- _ => rewrite H end.
      reflexivity.
    + match goal with H : (_ && _)%bool = true |- _ =>
        apply andb_true_iff in H; destruct H as [_ H];
        apply N.leb_le in H end.
      lia.
  - apply printable_u_escape.
  - cbv zeta. rewrite printable_append, !printable_u_escape. reflexivity.
Qed.

Lemma printable_json_string (s : string) :
  printable_ascii (json_string s) = true.
Proof.
  unfold json_string.
  rewrite !printable_append. change (printable_ascii dq) with true.
  rewrite andb_true_r. simpl.
  apply printable_concat; [reflexivity |].
  generalize (match code_points s with
              | Some cps => cps
              | None => map to_N (list_byte_of_string s)
              end).
  intros l. induction l as [| c l IH]; simpl; [reflexivity |].
  rewrite printable_json_escape_char, IH. reflexivity.
Qed.

Lemma printable_uint (d : Decimal.uint) :
  printable_ascii (NilEmpty.string_of_uint d) = true.
Proof. induction d; simpl; auto. Qed.

Lemma printable_string_of_Z (z : Z) :
  printable_ascii (string_of_Z z) = true.
Proof.
  unfold string_of_Z, NilZero.string_of_int, NilZero.string_of_uint.
  destruct (Z.to_int z) as [d | d]; destruct d;
    try reflexivity; simpl; apply printable_uint.
Qed.

Lemma printable_json_dumps_value (v : pyval) :
  printable_ascii (json_dumps_value v) = true.
Proof.
  destruct v as [| [|] | z | s]; try reflexivity.
  - apply printable_string_of_Z.
  - apply printable_json_string.
Qed.

Lemma printable_json_dumps (d : dict) :
  printable_ascii (json_dumps d) = true.
Proof.
  unfold json_dumps. rewrite !printable_append. simpl.
  rewrite andb_true_r. apply printable_concat; [reflexivity |].
  induction d as [| [k v] d IH]; [reflexivity |].
  cbn [map forallb]. rewrite IH, andb_true_r.
  unfold json_item. cbn [fst snd].
  rewrite !printable_append, printable_json_string,
    printable_json_dumps_value.
  reflexivity.
Qed.

(** X17.  The definition that [TTLPolicy] and [HAPolicy] hand to [rabbitmqctl]
    is printable ASCII, whatever the params: [json.dumps] is called with
    its default [ensure_ascii], which escapes every other character. *)
Theorem computed_definitions_are_ascii (self : policy) :
  class_of self <> BasePolicy_class ->
  printable_ascii (definition self) = true.
Proof.
  unfold class_of, definition.
  destruct (cls self) as [d | ttl mt | params m sm].
  - intros H. exfalso. apply H. reflexivity.
  - intros _. unfold TTLPolicy_definition.
    destruct mt; apply printable_json_dumps.
  - intros _. apply printable_json_dumps.
Qed.

(* ------------------------------------------------------------------ *)
(** ** Assignments in sequence *)



(* ------------------------------------------------------------------ *)
(** ** Plain output *)

Lemma ascii_decodes (out : bytes) :
  forallb (fun b => (to_N b <? 128)%N) out = true ->
  code_points_of_bytes out = Some (map to_N out).
Proof.
  unfold code_points_of_bytes.
  induction out as [| b out IH]; simpl; [reflexivity |].
  intros H. apply andb_true_iff in H. destruct H as [Hb Hout].
  rewrite Hb, (IH Hout). reflexivity.
Qed.

(** X19.  When [rabbitmqctl] prints ASCII only, decoding cannot fail: [clear]
    returns the printed text on every class and [set] returns it on a
    [BasePolicy]; neither reports anything. *)
Theorem ascii_output_is_returned (self : policy) (out : bytes) :
  forallb (fun b => (to_N b <? 128)%N) out = true ->
  (check_output (clear_policy_argv self) = Return out ->
   outcome (clear self) = Return (Some (string_of_list_byte out))
   /\ status_set_calls (trace (clear self)) = [])
  /\ (forall d, cls self = BasePolicy d ->
                check_output (set_policy_argv self) = Return out ->
                outcome (set self) = Return (Some (string_of_list_byte out))
                /\ status_set_calls (trace (set self)) = []).
Proof.
  intros Hascii.
  assert (Hdec : code_points_of_bytes out <> None)
    by (rewrite (ascii_decodes out Hascii); discriminate).
  split.
  - intros Hout. rewrite (clear_succeeds self out Hout Hdec).
    split; reflexivity.
  - intros d Hcls Hout.
    assert (Hc : outcome (check self) = Return true).
    { rewrite other_check_run; [reflexivity |].
      intros p m sm. rewrite Hcls. discriminate. }
    destruct (set_success_path self out Hc Hout Hdec)
      as (_ & Hst & _ & _ & Hres).
    rewrite Hcls in Hres. split; assumption.
Qed.

End Policies.

(* ------------------------------------------------------------------ *)
(** ** The unit tests, replayed *)

Example ttl_example_built :
  TTLPolicy_new decimal_of_str no_text
                (PyStr "openstack") (PyStr "TTL") (PyStr "foo")
  = Return ttl_example.
Proof. reflexivity. Qed.

Example ha_example_built :
  HAPolicy_new (PyStr "openstack") (PyStr "HA") (PyStr "foo")
  = Return ha_example.
Proof. reflexivity. Qed.

Example ha_exactly_example_built :
  HAPolicy_init (PyStr "openstack") (PyStr "HA") (PyStr "foo")
                (PyStr "exchanges") (PyInt 0) (PyStr "bar") (PyStr "ha")
                (PyStr "exactly") (PyStr "manual")
  = Return ha_exactly_example.
Proof. reflexivity. Qed.

Example base_example_built :
  BasePolicy_new (PyStr "/") (PyStr "HA") = Return base_example.
Proof. reflexivity. Qed.

(** [test_policies_classes]. *)
Example test_policies_classes :
  policy_eq base_example
            (mkPolicy "/" "HA" "foo" "queues" "1" "ha"
                      (HAPolicy PyNone "all" "automatic")) = true
  /\ policy_eq base_example ha_example = false.
Proof. split; reflexivity. Qed.

(** [test_set_policy]: one call of [check_output], two of [log], none of
    [status_set]. *)
Example test_set_policy :
  let generic_policy :=
    mkPolicy "/" "HA" "^(?!amq\.).*" "queues" "1" "generic"
             (BasePolicy (HAPolicy_definition PyNone "all" "automatic")) in
  let run := set no_text check_output_ok cmp_newer generic_policy in
  check_output_calls (trace run)
  = [["rabbitmqctl"; "set_policy"; "-p"; "/"; "HA"; "^(?!amq\.).*";
      "{" ++ dq ++ "ha-mode" ++ dq ++ ": " ++ dq ++ "all" ++ dq ++ ", "
          ++ dq ++ "ha-sync-mode" ++ dq ++ ": " ++ dq ++ "automatic" ++ dq
          ++ "}";
      "--apply-to"; "queues"; "--priority"; "1"]]
  /\ List.length (log_calls (trace run)) = 2%nat
  /\ status_set_calls (trace run) = [].
Proof. repeat split; reflexivity. Qed.

(** [test_set_policy_process_error] and [test_clear_policy_error]. *)
Example test_policy_process_error :
  let run := set no_text check_output_fails cmp_newer base_example in
  let run' := clear no_text check_output_fails base_example in
  List.length (log_calls (trace run)) = 2%nat
  /\ List.length (status_set_calls (trace run)) = 1%nat
  /\ List.length (log_calls (trace run')) = 2%nat
  /\ List.length (status_set_calls (trace run')) = 1%nat.
Proof. repeat split; reflexivity. Qed.

(** [test_clear_policy]. *)
Example test_clear_policy :
  let run := clear no_text check_output_ok base_example in
  check_output_calls (trace run)
  = [["rabbitmqctl"; "clear_policy"; "-p"; "/"; "HA"]]
  /\ List.length (log_calls (trace run)) = 2%nat
  /\ status_set_calls (trace run) = [].
Proof. repeat split; reflexivity. Qed.

(** [test_wrong_apply_to]. *)
Example test_wrong_apply_to :
  TTLPolicy_init decimal_of_str no_text
                 (PyStr "openstack") (PyStr "TTL") (PyStr "foo")
                 (PyStr "bar") (PyStr "1") (PyStr "ttl")
                 (PyInt 3600000) (PyBool true)
  = Raise (mkExn ValueError "Value bar not in ApplyToTypes.").
Proof. reflexivity. Qed.

(** [test_ttl_policy], second object: [priority=0] and [ttl="3600"] are
    coerced, and the definition uses the other key. *)
Example test_ttl_policy :
  exists p,
    TTLPolicy_init decimal_of_str no_text
                   (PyStr "openstack") (PyStr "TTL") (PyStr "foo")
                   (PyStr "all") (PyInt 0) (PyStr "ttl")
                   (PyStr "3600") (PyBool false) = Return p
    /\ apply_to p = "all" /\ priority p = "0" /\ type p = "ttl"
    /\ cls p = TTLPolicy 3600 false
    /\ definition p = "{" ++ dq ++ "experies" ++ dq ++ ": 3600}".
Proof. eexists; repeat split; reflexivity. Qed.

(** [test_ha_policy]: the two definitions, and the two runs of [set]. *)
Example test_ha_policy :
  definition ha_example
  = "{" ++ dq ++ "ha-mode" ++ dq ++ ": " ++ dq ++ "all" ++ dq ++ ", "
        ++ dq ++ "ha-sync-mode" ++ dq ++ ": " ++ dq ++ "automatic" ++ dq
        ++ "}"
  /\ definition ha_exactly_example
     = "{" ++ dq ++ "ha-mode" ++ dq ++ ": " ++ dq ++ "exactly" ++ dq ++ ", "
           ++ dq ++ "ha-sync-mode" ++ dq ++ ": " ++ dq ++ "manual" ++ dq
           ++ ", " ++ dq ++ "ha-params" ++ dq ++ ": " ++ dq ++ "bar" ++ dq
           ++ "}"
  /\ List.length
       (check_output_calls
          (trace (set no_text check_output_ok cmp_newer ha_example)))
     = 1%nat
  /\ check_output_calls
       (trace (set no_text check_output_ok cmp_older ha_exactly_example))
     = [].
Proof. repeat split; reflexivity. Qed.

(* ------------------------------------------------------------------ *)
(** ** The overriding [set] methods

    [TTLPolicy.set] and [HAPolicy.set] call [super().set()] without
    returning its value. *)

(** C1.  On the objects of the unit tests, with a [rabbitmqctl] that prints
    [ok] and a recent rabbitmq-server: [TTLPolicy.set] and [HAPolicy.set]
    make exactly the calls of [BasePolicy.set] on the same object, but
    where [BasePolicy.set] returns the captured output [ok] they return
    [None]. *)
Theorem C1_overriding_set_drops_the_output :
  let base := BasePolicy_set no_text check_output_ok cmp_newer in
  (trace (TTLPolicy_set no_text check_output_ok cmp_newer ttl_example)
   = trace (base ttl_example)
   /\ outcome (base ttl_example) = Return (Some "ok")
   /\ outcome (TTLPolicy_set no_text check_output_ok cmp_newer ttl_example)
      = Return None)
  /\ (trace (HAPolicy_set no_text check_output_ok cmp_newer ha_example)
      = trace (base ha_example)
      /\ outcome (base ha_example) = Return (Some "ok")
      /\ outcome (HAPolicy_set no_text check_output_ok cmp_newer ha_example)
         = Return None).
Proof. repeat split; reflexivity. Qed.

(** C2.  With [check] true and a [rabbitmqctl] that prints [ok], [set] on
    the [TTLPolicy] of the unit tests runs the expected argument vector
    once and never calls [status_set], yet it returns [None], not [ok];
    on a [BasePolicy] the same run returns [ok]. *)
Theorem C2_set_returns_none_on_subclasses :
  let run := set no_text check_output_ok cmp_newer in
  outcome (check cmp_newer ttl_example) = Return true
  /\ check_output_calls (trace (run ttl_example))
     = [["rabbitmqctl"; "set_policy"; "-p"; "openstack"; "TTL"; "foo";
         "{" ++ dq ++ "message-ttl" ++ dq ++ ": 3600000}";
         "--apply-to"; "queues"; "--priority"; "1"]]
  /\ status_set_calls (trace (run ttl_example)) = []
  /\ outcome (run ttl_example) = Return None
  /\ outcome (run ha_example) = Return None
  /\ outcome (run base_example) = Return (Some "ok").
Proof. repeat split; reflexivity. Qed.

(* ------------------------------------------------------------------ *)
(** ** Instances of the theorems *)

Lemma C3_ttl_definition_witness :
  definition ttl_example = json_dumps [("message-ttl", PyInt 3600000)]
  /\ definition ttl_example
     = "{" ++ dq ++ "message-ttl" ++ dq ++ ": " ++ string_of_Z 3600000 ++ "}".
Proof. exact (C3_ttl_definition ttl_example 3600000 true eq_refl). Defined.

Lemma C4_equality_by_key_witness :
  policy_eq base_example (with_cls base_example (TTLPolicy 5 false)) = true
  /\ __hash__ hash_length base_example
     = __hash__ hash_length (with_cls base_example (TTLPolicy 5 false)).
Proof.
  destruct (C4_equality_by_key hash_length base_example
              (with_cls base_example (TTLPolicy 5 false)))
    as (Heq & _ & Hhash).
  split; [apply Heq; reflexivity | apply Hhash; reflexivity].
Defined.

Lemma C5_validated_enumerations_witness :
  raises_ValueError (set_sync_mode ha_exactly_example (PyStr "foo"))
  /\ (exists self', set_mode ha_exactly_example (PyStr "nodes") = Return self'
                    /\ option_map PyStr (mode self') = Some (PyStr "nodes"))
  /\ (exists self', set_apply_to ttl_example (PyStr "all") = Return self'
                    /\ PyStr (apply_to self') = PyStr "all").
Proof.
  destruct (C5_validated_enumerations decimal_of_str no_text)
    as (Happly & Hmode & Hsync & _).
  split; [| split].
  - apply (proj1 (Hsync ha_exactly_example _ _ _ (PyStr "foo") eq_refl)).
    reflexivity.
  - apply (proj2 (Hmode ha_exactly_example _ _ _ (PyStr "nodes") eq_refl)).
    reflexivity.
  - apply (proj2 (Happly ttl_example (PyStr "all"))). reflexivity.
Defined.

Lemma C6_ha_version_gate_witness :
  (outcome (check cmp_older ha_example) = Return false
   /\ check_output_calls
        (trace (set no_text check_output_ok cmp_older ha_example)) = []
   /\ status_set_calls
        (trace (set no_text check_output_ok cmp_older ha_example)) = []
   /\ outcome (set no_text check_output_ok cmp_older ha_example)
      = Return None)
  /\ (outcome (check cmp_newer ha_example) = Return true
      /\ check_output_calls
           (trace (set no_text check_output_ok cmp_newer ha_example))
         = [set_policy_argv ha_example]).
Proof.
  split.
  - apply (C6_ha_version_gate no_text check_output_ok cmp_older ha_example
             PyNone "all" "automatic" eq_refl).
    unfold cmp_older. lia.
  - apply (C6_ha_version_gate no_text check_output_ok cmp_newer ha_example
             PyNone "all" "automatic" eq_refl).
    unfold cmp_newer. lia.
Defined.

Lemma C7_ha_definition_witness :
  let d := [("ha-mode", PyStr "exactly"); ("ha-sync-mode", PyStr "manual");
            ("ha-params", PyStr "bar")] in
  definition ha_exactly_example = json_dumps d
  /\ dict_get d "ha-mode" = Some (PyStr "exactly")
  /\ dict_get d "ha-sync-mode" = Some (PyStr "manual")
  /\ (dict_get d "ha-params" <> None <-> "exactly" <> "all")
  /\ ("exactly" <> "all" -> dict_get d "ha-params" = Some (PyStr "bar"))
  /\ (forall k, dict_get d k <> None ->
                k = "ha-mode" \/ k = "ha-sync-mode" \/ k = "ha-params").
Proof.
  exact (C7_ha_definition ha_exactly_example (PyStr "bar") "exactly" "manual"
                          eq_refl).
Defined.

Lemma C8_set_failure_absorbed_witness :
  outcome (set no_text check_output_fails cmp_newer ttl_example) = Return None
  /\ error_logs (trace (set no_text check_output_fails cmp_newer ttl_example))
     = ["Command 'cmd' returned non-zero exit status 1."
          ++ ", " ++ "RabbitMQ failed to create policy " ++ "TTL"]
  /\ status_set_calls
       (trace (set no_text check_output_fails cmp_newer ttl_example))
     = [("blocked", "RabbitMQ failed to create policy " ++ "TTL")].
Proof.
  apply (C8_set_failure_absorbed no_text check_output_fails cmp_newer
           ttl_example
           (mkExn CalledProcessError
                  "Command 'cmd' returned non-zero exit status 1."));
    reflexivity.
Defined.

Lemma C9_clear_witness :
  (outcome (clear no_text check_output_ok ha_example) = Return (Some "ok")
   /\ status_set_calls (trace (clear no_text check_output_ok ha_example)) = []
   /\ error_logs (trace (clear no_text check_output_ok ha_example)) = [])
  /\ (outcome (clear no_text check_output_fails ha_example) = Return None
      /\ error_logs (trace (clear no_text check_output_fails ha_example))
         = ["Command 'cmd' returned non-zero exit status 1."
              ++ ", " ++ "RabbitMQ failed to clear policy " ++ "HA"]
      /\ status_set_calls
           (trace (clear no_text check_output_fails ha_example))
         = [("blocked", "RabbitMQ failed to clear policy " ++ "HA")]).
Proof.
  split.
  - apply (proj1 (proj2 (C9_clear no_text check_output_ok ha_example))
             (list_byte_of_string "ok")).
    + reflexivity.
    + discriminate.
  - apply (proj2 (proj2 (C9_clear no_text check_output_fails ha_example))
             (mkExn CalledProcessError
                    "Command 'cmd' returned non-zero exit status 1."));
      reflexivity.
Defined.

Lemma C10_default_pattern_and_definition_witness :
  pattern base_example = "None"
  /\ definition base_example = "None"
  /\ String.length (pattern base_example) = 4%nat
  /\ String.length (definition base_example) = 4%nat
  /\ check_output_calls
       (trace (set no_text check_output_ok cmp_newer base_example))
     = [["rabbitmqctl"; "set_policy"; "-p"; vhost base_example;
         name base_example; "None"; "None"; "--apply-to";
         apply_to base_example; "--priority"; priority base_example]].
Proof.
  apply (C10_default_pattern_and_definition
           no_text check_output_ok cmp_newer
           (PyStr "/") (PyStr "HA") (PyStr "queues") (PyStr "1")
           (PyStr "generic") base_example).
  reflexivity.
Defined.

(* ------------------------------------------------------------------ *)
(** ** Instances of the further theorems *)

Lemma set_absorbs_value_errors_witness :
  set_reports_failure no_text check_output_value_error cmp_newer
                      ttl_example (mkExn ValueError EmptyString)
  /\ set_reports_failure no_text check_output_garbage cmp_newer
                         ha_example
                         (mkExn UnicodeDecodeError (no_text [xff])).
Proof.
  split.
  - apply (set_absorbs_value_errors no_text check_output_value_error
             cmp_newer ttl_example); reflexivity.
  - apply (set_absorbs_value_errors no_text check_output_garbage
             cmp_newer ha_example); reflexivity.
Defined.

Lemma set_propagates_other_exceptions_witness :
  raises_unreported
    (set no_text check_output_missing cmp_newer ttl_example)
    (mkExn OSError "[Errno 2] No such file or directory: 'rabbitmqctl'")
  /\ check_output_calls
       (trace (set no_text check_output_missing cmp_newer ttl_example))
     = [set_policy_argv ttl_example].
Proof.
  apply (set_propagates_other_exceptions no_text check_output_missing
           cmp_newer ttl_example); reflexivity.
Defined.

Lemma clear_propagates_all_but_command_failure_witness :
  raises_unreported (clear no_text check_output_value_error base_example)
                    (mkExn ValueError EmptyString)
  /\ raises_unreported (clear no_text check_output_garbage base_example)
                       (mkExn UnicodeDecodeError (no_text [xff])).
Proof.
  split.
  - apply (proj1 (clear_propagates_all_but_command_failure
                    no_text check_output_value_error base_example));
      reflexivity.
  - apply (proj2 (clear_propagates_all_but_command_failure
                    no_text check_output_garbage base_example) [xff]);
      reflexivity.
Defined.

Lemma base_set_none_iff_reported_witness :
  outcome (set no_text check_output_fails cmp_newer base_example)
  = Return None
  /\ log_calls (trace (set no_text check_output_ok cmp_newer base_example))
     = [(setting_msg base_example, DEBUG); ("ok", INFO)].
Proof.
  split.
  - apply (proj1 (base_set_none_iff_reported
                    no_text check_output_fails cmp_newer
                    base_example "None" eq_refl)).
    reflexivity.
  - apply (proj2 (base_set_none_iff_reported
                    no_text check_output_ok cmp_newer
                    base_example "None" eq_refl) "ok").
    reflexivity.
Defined.

Lemma assignment_keeps_identity_witness :
  let self' := with_cls ha_exactly_example
                        (HAPolicy (PyStr "bar") "nodes" "manual") in
  class_of self' = class_of ha_exactly_example
  /\ _key self' = _key ha_exactly_example
  /\ pattern self' = pattern ha_exactly_example
  /\ priority self' = priority ha_exactly_example
  /\ type self' = type ha_exactly_example
  /\ policy_eq ha_exactly_example self' = true
  /\ __hash__ hash_length self' = __hash__ hash_length ha_exactly_example
  /\ clear_policy_argv self' = clear_policy_argv ha_exactly_example.
Proof.
  apply (assignment_keeps_identity hash_length).
  apply (assigned_mode _ _ (PyStr "nodes")). reflexivity.
Defined.

Lemma enumerations_stay_valid_witness :
  let p := with_cls ha_exactly_example
                    (HAPolicy (PyStr "bar") "nodes" "manual") in
  enumerations_valid p = true
  /\ In (apply_to p) ["queues"; "exchanges"; "all"]
  /\ nth_error (set_policy_argv p) 8 = Some (apply_to p)
  /\ (forall params m sm,
         cls p = HAPolicy params m sm ->
         In m ["all"; "exactly"; "nodes"] /\ In sm ["automatic"; "manual"]).
Proof.
  apply (enumerations_stay_valid decimal_of_str no_text).
  apply (reachable_assigned decimal_of_str no_text ha_exactly_example).
  - apply reachable_constructed.
    apply (constructed_ha decimal_of_str no_text _
             (PyStr "openstack") (PyStr "HA") (PyStr "foo")
             (PyStr "exchanges") (PyInt 0) (PyStr "bar") (PyStr "ha")
             (PyStr "exactly") (PyStr "manual")).
    reflexivity.
  - apply (assigned_mode _ _ (PyStr "nodes")). reflexivity.
Defined.

Lemma constructors_report_first_invalid_witness :
  HAPolicy_init (PyStr "openstack") (PyStr "HA") (PyStr "foo")
                (PyStr "bar") (PyStr "1") PyNone (PyStr "ha")
                (PyStr "bad") (PyStr "worse")
  = Raise (not_in (PyStr "bar") "ApplyToTypes")
  /\ HAPolicy_init (PyStr "openstack") (PyStr "HA") (PyStr "foo")
                   (PyStr "all") (PyStr "1") PyNone (PyStr "ha")
                   (PyStr "bad") (PyStr "worse")
     = Raise (not_in (PyStr "bad") "ModeTypes").
Proof.
  split.
  - apply (proj1 (constructors_report_first_invalid
                    decimal_of_str no_text
                    (PyStr "openstack") (PyStr "HA") (PyStr "foo")
                    (PyStr "bar") (PyStr "1") PyNone (PyStr "ha")
                    (PyStr "bad") (PyStr "worse") PyNone PyNone)).
    reflexivity.
  - apply (proj1 (proj2 (constructors_report_first_invalid
                    decimal_of_str no_text
                    (PyStr "openstack") (PyStr "HA") (PyStr "foo")
                    (PyStr "all") (PyStr "1") PyNone (PyStr "ha")
                    (PyStr "bad") (PyStr "worse") PyNone PyNone)));
      reflexivity.
Defined.

Lemma message_ttl_is_truthiness_witness :
  exists X,
    py_int decimal_of_str no_text (PyStr "3600") = Return X
    /\ cls (with_cls ttl_example (TTLPolicy 3600 true))
       = TTLPolicy X (py_bool (PyStr "False"))
    /\ definition (with_cls ttl_example (TTLPolicy 3600 true))
       = "{" ++ dq ++ "message-ttl" ++ dq ++ ": " ++ string_of_Z X ++ "}".
Proof.
  destruct (message_ttl_is_truthiness
              decimal_of_str no_text
              (PyStr "openstack") (PyStr "TTL") (PyStr "foo")
              (PyStr "queues") (PyStr "1") (PyStr "ttl")
              (PyStr "3600") (PyStr "False")
              (with_cls ttl_example (TTLPolicy 3600 true)) eq_refl)
    as (X & HX & Hcls & Htrue & _).
  exists X. split; [exact HX |]. split; [exact Hcls |].
  apply Htrue. left. exists "False". split; [reflexivity | discriminate].
Defined.

Lemma ttl_definition_injective_witness :
  3600%Z = 3600%Z /\ false = false.
Proof. exact (ttl_definition_injective 3600 3600 false false eq_refl). Defined.

Lemma ha_definition_determines_modes_witness :
  "nodes" = "nodes" /\ "manual" = "manual".
Proof.
  exact (ha_definition_determines_modes
           (PyStr "bar") (PyStr "bar") "nodes" "nodes" "manual" "manual"
           eq_refl eq_refl eq_refl eq_refl eq_refl).
Defined.

Lemma computed_definitions_are_ascii_witness :
  printable_ascii
    (definition
       (with_cls ha_exactly_example
                 (HAPolicy (PyStr (String "195" (String "169" EmptyString)))
                           "exactly" "manual")))
  = true.
Proof.
  apply computed_definitions_are_ascii. discriminate.
Defined.

Lemma ascii_output_is_returned_witness :
  (outcome (clear no_text check_output_ok ha_example) = Return (Some "ok")
   /\ status_set_calls (trace (clear no_text check_output_ok ha_example)) = [])
  /\ (outcome (set no_text check_output_ok cmp_newer base_example)
      = Return (Some "ok")
      /\ status_set_calls
           (trace (set no_text check_output_ok cmp_newer base_example)) = []).
Proof.
  destruct (ascii_output_is_returned no_text check_output_ok cmp_newer
              ha_example (list_byte_of_string "ok") eq_refl) as [Hc _].
  destruct (ascii_output_is_returned no_text check_output_ok cmp_newer
              base_example (list_byte_of_string "ok") eq_refl) as [_ Hs].
  split; [apply Hc; reflexivity | apply (Hs "None"); reflexivity].
Defined.
